(** * openai-edge-tts: the speech-generation pipeline of [app/tts_handler.py]

    A shallow embedding of [speed_to_rate], [is_ffmpeg_installed],
    [_generate_audio] and [generate_speech], and the properties of the
    specification that concern them.

    Conventions of the embedding:
    - Python [float] is IEEE binary64: Rocq's primitive [float].
    - Python [str] is [string]; the three constant [dict]s are [gmap]s.
    - The file system is the finite set of paths that exist; the calls that
      leave the process (temporary-file creation, [Communicate.save],
      [subprocess.run], [Path.unlink]) are recorded, in order, in a trace.
    - An exception is a [Raise] result of a state-and-exception monad; the
      state reached when the exception leaves the function is kept.
    - What the outside world answers (the language detector, the remote
      synthesis service, the processes run) is an [Env] of oracles.
    - [print] is console output and is not modelled. *)

From Stdlib Require Import Floats ZArith Ascii.
From stdpp Require Import gmap strings list fin_maps pretty.

Set Warnings "-inexact-float,-clear-no-such-hyp".
Open Scope string_scope.

(** ** Python values *)

Module Py.

(** [s.startswith(p)] *)
Definition startswith (p s : string) : bool := String.prefix p s.

(** [sub in s] for two strings *)
Fixpoint contains (sub s : string) : bool :=
  String.prefix sub s ||
  match s with
  | EmptyString => false
  | String _ s' => contains sub s'
  end.

(** [s.endswith(suf)] *)
Fixpoint endswith (suf s : string) : bool :=
  String.eqb suf s ||
  match s with
  | EmptyString => false
  | String _ s' => endswith suf s'
  end.

(** [sep.join(l)] *)
Fixpoint join (sep : string) (l : list string) : string :=
  match l with
  | [] => ""
  | [x] => x
  | x :: l' => x +:+ sep +:+ join sep l'
  end.

(** The integer nearest to [m * 2^e], ties to the even one: the digits
    that [format(x, '.0f')] prints for the binary64 number [m * 2^e]. *)
Definition round_half_even (m : positive) (e : Z) : N :=
  if (0 <=? e)%Z then (N.pos m * 2 ^ Z.to_N e)%N
  else
    let d := (2 ^ Z.to_N (- e))%N in
    let q := (N.pos m / d)%N in
    let r := (N.pos m mod d)%N in
    match (2 * r ?= d)%N with
    | Lt => q
    | Gt => (q + 1)%N
    | Eq => if N.even q then q else (q + 1)%N
    end.

Definition sign_char (negative : bool) : string :=
  if negative then "-" else "+".

(** [format(x, '+.0f')]: the sign is that of [x] itself (so a negative
    number that rounds to zero prints as [-0]); a NaN prints as [+nan]. *)
Definition format_plus_0f (x : float) : string :=
  match Prim2SF x with
  | S754_nan => "+nan"
  | S754_infinity s => sign_char s +:+ "inf"
  | S754_zero s => sign_char s +:+ "0"
  | S754_finite s m e => sign_char s +:+ pretty (round_half_even m e)
  end.

End Py.

(** ** Exceptions and results *)

Inductive exn : Type :=
  | ValueError (msg : string)
  | RuntimeError (msg : string)
  | SynthesisFailure (cause : string)   (* whatever [Communicate.save] raises *)
  | FileNotFoundError.                  (* [subprocess.run]: no such binary *)

Inductive result (A : Type) : Type :=
  | Ok (a : A)
  | Raise (e : exn).
Arguments Ok {A} a.
Arguments Raise {A} e.

(** ** Speed codec: [speed_to_rate] (lines 143-147) *)

Definition speed_to_rate (speed : float) : result string :=
  if ((speed <? 0) || (2 <? speed))%float then
    Raise (ValueError "Speed must be between 0 and 2 (inclusive).")
  else
    let percentage_change := ((speed - 1) * 100)%float in
    Ok (Py.format_plus_0f percentage_change +:+ "%").

(** ** The outside world *)

(** What [subprocess.run(cmd, check=True, ...)] does: it returns, or raises
    [CalledProcessError] (non-zero exit status, with the captured error
    stream, decoded), or raises [FileNotFoundError]. *)
Inductive proc_result : Type :=
  | Completed
  | CalledProcessError (returncode : Z) (stderr : string)
  | NoSuchBinary.

Record Env : Type := {
  (** [langdetect.detect], as it answers during one call of
      [generate_speech]; [None] is [LangDetectException]. The detector is
      not seeded: another call, for the same text, is another [Env]. *)
  detect : string -> option string;
  (** [edge_tts.Communicate(text, voice, rate).save(path)]: [None] when the
      audio was written, [Some cause] when the call raised *)
  edge_save : string -> string -> string -> option string;
  (** the outcome of running a command line *)
  run : list string -> proc_result;
  (** [utils.DETAILED_ERROR_LOGGING] *)
  DETAILED_ERROR_LOGGING : bool;
  (** [str(e)] of a [CalledProcessError] with this command and exit status *)
  CalledProcessError_str : list string -> Z -> string
}.

Inductive event : Type :=
  | EvTemp (suffix path : string)             (* NamedTemporaryFile(delete=False, suffix) *)
  | EvSave (text voice rate path : string)    (* Communicate(text, voice, rate).save(path) *)
  | EvRun (cmd : list string)                 (* subprocess.run(cmd, check=True, ...) *)
  | EvUnlink (path : string).                 (* Path(path).unlink(missing_ok=True) *)

Record World : Type := {
  disk : gset string;
  trace : list event
}.

Definition emit (ev : event) (w : World) : World :=
  {| disk := disk w; trace := trace w ++ [ev] |}.

(** ** State and exception monad *)

Definition M (A : Type) : Type := World -> result A * World.

Definition ret {A} (a : A) : M A := fun w => (Ok a, w).

Definition raise {A} (e : exn) : M A := fun w => (Raise e, w).

Definition bind {A B} (m : M A) (k : A -> M B) : M B :=
  fun w =>
    match m w with
    | (Ok a, w') => k a w'
    | (Raise e, w') => (Raise e, w')
    end.

Notation "x <- m ;; k" := (bind m (fun x => k))
  (at level 100, m at next level, right associativity).
Notation "m ;; k" := (bind m (fun _ => k))
  (at level 100, right associativity).

(** ** Temporary files *)

(** The [n]-th candidate name for a temporary file with this suffix. *)
Definition tmp_name (suffix : string) (n : nat) : string :=
  "/tmp/tmp" +:+ pretty n +:+ suffix.

(** The first candidate that does not exist yet. *)
Fixpoint first_free (X : gset string) (suffix : string) (fuel n : nat) : string :=
  match fuel with
  | O => tmp_name suffix n
  | S fuel' =>
      if decide (tmp_name suffix n ∈ X) then first_free X suffix fuel' (S n)
      else tmp_name suffix n
  end.

Definition fresh_tmp (X : gset string) (suffix : string) : string :=
  first_free X suffix (size X) 0.

(** [tempfile.NamedTemporaryFile(delete=False, suffix=suffix).name]: a new
    file, under a name no existing file has, that ends with [suffix]. The
    call is modelled where it returns; it raises when the suffix cannot end
    a file name (that of line 62 for a [response_format] holding [/]), so
    what is stated of the conversion is stated of the runs where line 62
    returned. *)
Definition NamedTemporaryFile (suffix : string) : M string :=
  fun w =>
    let p := fresh_tmp (disk w) suffix in
    (Ok p, {| disk := {[p]} ∪ disk w; trace := trace w ++ [EvTemp suffix p] |}).

(** [Path(path).unlink(missing_ok=True)] *)
Definition unlink (path : string) : M unit :=
  fun w =>
    (Ok tt, {| disk := disk w ∖ {[path]}; trace := trace w ++ [EvUnlink path] |}).

(** [await edge_tts.Communicate(text=..., voice=..., rate=...).save(path)] *)
Definition Communicate_save (E : Env) (text voice rate path : string) : M unit :=
  fun w =>
    let w' := emit (EvSave text voice rate path) w in
    match edge_save E text voice rate with
    | None => (Ok tt, {| disk := {[path]} ∪ disk w'; trace := trace w' |})
    | Some cause => (Raise (SynthesisFailure cause), w')
    end.

(** [subprocess.run(cmd, check=True, stdout=PIPE, stderr=PIPE)], its
    exceptions returned as values for the [try] around it. *)
Definition subprocess_run (E : Env) (cmd : list string) : M proc_result :=
  fun w => (Ok (run E cmd), emit (EvRun cmd) w).

(** ** Static tables (lines 19-32) *)

Definition voice_mapping : gmap string string :=
  <["alloy" := "en-US-AvaNeural"]>
  (<["echo" := "en-US-AndrewNeural"]>
  (<["fable" := "en-GB-SoniaNeural"]>
  (<["onyx" := "en-US-EricNeural"]>
  (<["nova" := "en-US-SteffanNeural"]>
  (<["shimmer" := "en-US-EmmaNeural"]> ∅))))).

Definition MULTILINGUAL_VOICE : string := "en-US-AndrewMultilingualNeural".

Definition LANGUAGE_VOICE_OVERRIDES : gmap string string :=
  <["ru" := "ru-RU-DmitryNeural"]> ∅.

(** [d.get(k, dflt)] *)
Definition dict_get (d : gmap string string) (k dflt : string) : string :=
  default dflt (d !! k).

(** ** [is_ffmpeg_installed] (lines 34-39) *)

Definition is_ffmpeg_installed (E : Env) : M bool :=
  r <- subprocess_run E ["ffmpeg"; "-version"] ;;
  match r with
  | Completed => ret true
  | CalledProcessError _ _ | NoSuchBinary => ret false
  end.

(** ** [_generate_audio] (lines 41-106) *)

(** The two codec tables of lines 68-74 and 81-87. *)
Definition codec_table : gmap string string :=
  <["aac" := "aac"]>
  (<["mp3" := "libmp3lame"]>
  (<["wav" := "pcm_s16le"]>
  (<["opus" := "libopus"]>
  (<["flac" := "flac"]> ∅)))).

Definition container_table : gmap string string :=
  <["aac" := "mp4"]>
  (<["mp3" := "mp3"]>
  (<["wav" := "wav"]>
  (<["opus" := "ogg"]>
  (<["flac" := "flac"]> ∅)))).

(** The command line built on lines 66-89. *)
Definition ffmpeg_command (temp_mp3_path response_format converted_path : string)
  : list string :=
  let ffmpeg_command :=
    ["ffmpeg"; "-i"; temp_mp3_path;
     "-c:a"; dict_get codec_table response_format "aac"] in
  let ffmpeg_command :=
    if negb (String.eqb response_format "wav")
    then (ffmpeg_command ++ ["-b:a"; "192k"])%list
    else ffmpeg_command in
  (ffmpeg_command ++
    ["-f"; dict_get container_table response_format response_format;
     "-y"; converted_path])%list.

(** The message of lines 97-101. *)
Definition error_message (E : Env) (cmd : list string) (returncode : Z)
    (stderr : string) : string :=
  if DETAILED_ERROR_LOGGING E then
    "FFmpeg error during audio conversion. Command: '" +:+ Py.join " " cmd +:+ "'. "
    +:+ "Stderr: " +:+ stderr
  else
    "FFmpeg error during audio conversion: " +:+ CalledProcessError_str E cmd returncode.

(** Lines 45-49: the rate handed to the synthesis call. *)
Definition speed_rate (speed : float) : string :=
  match speed_to_rate speed with
  | Ok r => r
  | Raise _ => "+0%"
  end.

Definition _generate_audio (E : Env) (text voice response_format : string)
    (speed : float) : M string :=
  temp_mp3_path <- NamedTemporaryFile ".mp3" ;;
  let speed_rate := speed_rate speed in
  Communicate_save E text voice speed_rate temp_mp3_path ;;
  if String.eqb response_format "mp3" then ret temp_mp3_path
  else
    installed <- is_ffmpeg_installed E ;;
    if negb installed then ret temp_mp3_path
    else
      converted_path <- NamedTemporaryFile ("." +:+ response_format) ;;
      let cmd := ffmpeg_command temp_mp3_path response_format converted_path in
      r <- subprocess_run E cmd ;;
      match r with
      | CalledProcessError returncode stderr =>
          unlink converted_path ;;
          unlink temp_mp3_path ;;
          raise (RuntimeError (error_message E cmd returncode stderr))
      | NoSuchBinary => raise FileNotFoundError
      | Completed =>
          unlink temp_mp3_path ;;
          ret converted_path
      end.

(** ** [generate_speech] (lines 108-124) *)

(** Lines 109-112. *)
Definition detected_lang (E : Env) (text : string) : string :=
  match detect E text with
  | Some lang => lang
  | None => "en"
  end.

(** Line 114. *)
Definition mapped_voice (voice : string) : string :=
  dict_get voice_mapping voice voice.

(** Lines 116-122: the voice after the language rule. *)
Definition language_rule (detected_lang mapped_voice : string) : string :=
  if Py.startswith "en-" mapped_voice && negb (Py.contains "Multilingual" mapped_voice)
  then
    match LANGUAGE_VOICE_OVERRIDES !! detected_lang with
    | Some override => override
    | None =>
        if negb (String.eqb detected_lang "en") then MULTILINGUAL_VOICE
        else mapped_voice
    end
  else mapped_voice.

(** Lines 109-122: the voice that [generate_speech] synthesises with. *)
Definition resolved_voice (E : Env) (voice text : string) : string :=
  language_rule (detected_lang E text) (mapped_voice voice).

Definition generate_speech (E : Env) (text voice response_format : string)
    (speed : float) : M string :=
  _generate_audio E text (resolved_voice E voice text) response_format speed.

(** ** [_get_voices] and [get_voices] (lines 132-141) *)

(** The keys read of an entry of [edge_tts.list_voices()]. *)
Record catalogue_voice : Type := {
  ShortName : string;
  Gender : string;
  Locale : string
}.

(** An entry of the answer: the keys [name], [gender], [language]. *)
Record voice_info : Type := {
  name : string;
  gender : string;
  language : string
}.

(** [a or b] for two values that are a string or [None]: [None] and the
    empty string are false. *)
Definition py_or (a b : option string) : option string :=
  match a with
  | Some s => if String.eqb s "" then b else a
  | None => b
  end.

(** The test of the comprehension of line 137. *)
Definition voice_selected (language : option string) (v : catalogue_voice) : bool :=
  match language with
  | None => true
  | Some l => String.eqb l "all" || String.eqb (Locale v) l
  end.

(** [DEFAULT_LANGUAGE] is the module constant of line 16, [all_voices] what
    [edge_tts.list_voices()] answered. *)
Definition _get_voices (DEFAULT_LANGUAGE : option string)
    (all_voices : list catalogue_voice) (language : option string)
  : list voice_info :=
  let language := py_or language DEFAULT_LANGUAGE in
  (fun v => {| name := ShortName v; gender := Gender v; language := Locale v |})
    <$> List.filter (voice_selected language) all_voices.

Definition get_voices (DEFAULT_LANGUAGE : option string)
    (all_voices : list catalogue_voice) (language : option string)
  : list voice_info :=
  _get_voices DEFAULT_LANGUAGE all_voices language.

(** ** The HTTP handlers of [app/server.py]

    The handlers are modelled under their [require_api_key] decorator, for
    requests whose body is absent or a JSON object whose fields, when
    present, have the types of the API: strings for [input], [voice],
    [response_format], [text], [language] and [locale], a number for
    [speed]. Logging is not modelled. *)

(** The constants of lines 15-23, and what the modules that are not part of
    these sources provide. *)
Record Config : Type := {
  DEFAULT_VOICE : string;
  DEFAULT_RESPONSE_FORMAT : string;
  DEFAULT_SPEED : float;
  REMOVE_FILTER : bool;
  EXPAND_API : bool;
  (** [tts_handler.DEFAULT_LANGUAGE] *)
  DEFAULT_LANGUAGE : option string;
  (** [utils.AUDIO_FORMAT_MIME_TYPES] *)
  AUDIO_FORMAT_MIME_TYPES : gmap string string;
  (** [handle_text.prepare_tts_input_with_context] *)
  prepare_tts_input_with_context : string -> string
}.

(** What a handler returns. *)
Inductive response : Type :=
  (** [jsonify({...}), status] for an object of strings *)
  | jsonify (body : list (string * string)) (status : nat)
  (** [jsonify({"voices": [...]})] *)
  | jsonify_voices (voices : list voice_info)
  (** [send_file(path, mimetype=..., as_attachment=True, download_name=...)] *)
  | send_file (path mimetype download_name : string).

(** [str(e)] *)
Definition exn_str (e : exn) : string :=
  match e with
  | ValueError msg => msg
  | RuntimeError msg => msg
  | SynthesisFailure cause => cause
  | FileNotFoundError => "[Errno 2] No such file or directory: 'ffmpeg'"
  end.

(** The JSON body of [POST /v1/audio/speech]. *)
Record speech_body : Type := {
  input : option string;
  voice : option string;
  response_format : option string;
  speed : option float
}.

(** [text_to_speech] (lines 28-52), once [request.json] has returned
    [data]: [None] for the JSON [null], an object otherwise.
    [text_to_speech_request] below adds the request whose JSON cannot be
    read. *)
Definition text_to_speech (C : Config) (E : Env) (data : option speech_body)
  : World -> response * World :=
  fun w =>
    match data ≫= input with
    | None => (jsonify [("error", "Missing 'input' in request body")] 400, w)
    | Some text =>
        let text :=
          if negb (REMOVE_FILTER C) then prepare_tts_input_with_context C text
          else text in
        let voice := default (DEFAULT_VOICE C) (data ≫= voice) in
        let response_format :=
          default (DEFAULT_RESPONSE_FORMAT C) (data ≫= response_format) in
        let speed := default (DEFAULT_SPEED C) (data ≫= speed) in
        let mime_type :=
          dict_get (AUDIO_FORMAT_MIME_TYPES C) response_format "audio/mpeg" in
        match generate_speech E text voice response_format speed w with
        | (Ok output_file_path, w') =>
            (send_file output_file_path mime_type ("speech." +:+ response_format), w')
        | (Raise e, w') =>
            (jsonify [("error", "An internal server error occurred");
                      ("details", exn_str e)] 500, w')
        end
    end.

(** What reading [request.json] on line 30 gives: it raises (no body, a
    body that is not JSON, another content type), with the text of the
    exception, or it returns the body. *)
Inductive request_json : Type :=
  | JsonRaises (message : string)
  | JsonIs (data : option speech_body).

(** [text_to_speech] (lines 28-52) on any request: line 30 is inside the
    [try], so an exception of [request.json] is answered by lines 47-52. *)
Definition text_to_speech_request (C : Config) (E : Env) (body : request_json)
  : World -> response * World :=
  fun w =>
    match body with
    | JsonRaises message =>
        (jsonify [("error", "An internal server error occurred");
                  ("details", message)] 500, w)
    | JsonIs data => text_to_speech C E data w
    end.

(** [elevenlabs_tts] (lines 100-124); [payload] is the [text] field of the
    body, when there is a body and it has one. *)
Definition elevenlabs_tts (C : Config) (E : Env) (voice_id : string)
    (payload : option string) : World -> response * World :=
  fun w =>
    if negb (EXPAND_API C) then (jsonify [("error", "Endpoint not allowed")] 500, w)
    else
      match payload with
      | None => (jsonify [("error", "Missing 'text' in request body")] 400, w)
      | Some text =>
          let text :=
            if negb (REMOVE_FILTER C) then prepare_tts_input_with_context C text
            else text in
          let voice := voice_id in
          let response_format := "mp3" in
          let speed := DEFAULT_SPEED C in
          match generate_speech E text voice response_format speed w with
          | (Raise e, w') =>
              (jsonify [("error", "TTS generation failed: " +:+ exn_str e)] 500, w')
          | (Ok output_file_path, w') =>
              (send_file output_file_path "audio/mpeg" "speech.mp3", w')
          end
      end.

(** [list_voices] (lines 85-90); [data] is the query string of a GET or the
    JSON body of a POST. *)
Definition list_voices (C : Config) (all_voices : list catalogue_voice)
    (data : option (gmap string string)) : response :=
  let specific_language :=
    match data with
    | Some d =>
        if bool_decide (d <> ∅)
           && (bool_decide (is_Some (d !! "language"))
               || bool_decide (is_Some (d !! "locale")))
        then
          if bool_decide (is_Some (d !! "language")) then d !! "language"
          else d !! "locale"
        else None
    | None => None
    end in
  jsonify_voices (get_voices (DEFAULT_LANGUAGE C) all_voices specific_language).

(** [list_all_voices] (lines 95-96). *)
Definition list_all_voices (C : Config) (all_voices : list catalogue_voice)
  : response :=
  jsonify_voices (get_voices (DEFAULT_LANGUAGE C) all_voices (Some "all")).

(** * Vocabulary of the statements *)

(** What [is_ffmpeg_installed] answers in an environment. *)
Definition ffmpeg_available (E : Env) : bool :=
  match run E ["ffmpeg"; "-version"] with
  | Completed => true
  | _ => false
  end.

(** The paths a trace deletes, in order. *)
Definition deletions (evs : list event) : list string :=
  omap (fun ev => match ev with EvUnlink p => Some p | _ => None end) evs.

(** The command lines a trace runs, in order. *)
Definition runs (evs : list event) : list (list string) :=
  omap (fun ev => match ev with EvRun cmd => Some cmd | _ => None end) evs.

(** The first [n] candidates. *)
Definition candidates (suffix : string) (n : nat) : gset string :=
  list_to_set (tmp_name suffix <$> seq 0 n).

(** The text Python gives [str(e)] for a [CalledProcessError] whose command
    holds only plain strings (no quote, no backslash, printable) and whose
    exit status is positive. *)
Definition plain_CalledProcessError_str (cmd : list string) (returncode : Z) : string :=
  "Command '[" +:+ Py.join ", " ((fun a => "'" +:+ a +:+ "'") <$> cmd) +:+ "]'"
  +:+ " returned non-zero exit status " +:+ pretty returncode +:+ ".".

(** Concrete environments: the detector answers [lang] for every text, the
    synthesis call has the outcome [saved], the availability probe the
    outcome [probe], every other command the outcome [conversion]. *)
Definition demo_env (lang : option string) (saved : option string)
    (probe conversion : proc_result) (detailed : bool) : Env := {|
  detect := fun _ => lang;
  edge_save := fun _ _ _ => saved;
  run := fun cmd =>
    if decide (cmd = ["ffmpeg"; "-version"]) then probe else conversion;
  DETAILED_ERROR_LOGGING := detailed;
  CalledProcessError_str := plain_CalledProcessError_str
|}.

(** No character of the string is a dot. *)
Fixpoint dotless (s : string) : bool :=
  match s with
  | EmptyString => true
  | String c s' => negb (Ascii.eqb c "."%char) && dotless s'
  end.

(** A concrete configuration: no text filter, the extra endpoints on. *)
Definition demo_config : Config := {|
  DEFAULT_VOICE := "en-US-AvaNeural";
  DEFAULT_RESPONSE_FORMAT := "mp3";
  DEFAULT_SPEED := 1;
  REMOVE_FILTER := true;
  EXPAND_API := true;
  DEFAULT_LANGUAGE := Some "en-US";
  AUDIO_FORMAT_MIME_TYPES :=
    <["mp3" := "audio/mpeg"]> (<["wav" := "audio/wav"]> (<["flac" := "audio/flac"]> ∅));
  prepare_tts_input_with_context := fun text => text
|}.

(** An empty disk and no call made yet. *)
Definition empty_world : World := {| disk := ∅; trace := [] |}.

(** * Properties *)

(** ** The speed codec on sample speeds *)

Example speed_to_rate_1_0 : speed_to_rate 1.0 = Ok "+0%".
Proof. vm_compute. reflexivity. Qed.
Example speed_to_rate_1_2 : speed_to_rate 1.2 = Ok "+20%".
Proof. vm_compute. reflexivity. Qed.
Example speed_to_rate_0_5 : speed_to_rate 0.5 = Ok "-50%".
Proof. vm_compute. reflexivity. Qed.
Example speed_to_rate_2_5 :
  speed_to_rate 2.5 = Raise (ValueError "Speed must be between 0 and 2 (inclusive).").
Proof. vm_compute. reflexivity. Qed.
Example speed_to_rate_0_999 : speed_to_rate 0.999 = Ok "-0%".
Proof. vm_compute. reflexivity. Qed.
Example speed_to_rate_nan : speed_to_rate nan = Ok "+nan%".
Proof. vm_compute. reflexivity. Qed.

(** ** The speed codec on every speed *)

Lemma SFcompare_swap (x y : spec_float) :
  SFcompare y x = CompOpp <$> SFcompare x y.
Proof.
  destruct x as [s1|s1| |s1 m1 e1], y as [s2|s2| |s2 m2 e2]; simpl; try done;
    try (by destruct s1); try (by destruct s2); try (by destruct s1, s2).
  rewrite (Z.compare_antisym e1 e2).
  destruct s1, s2; try done; destruct (e1 ?= e2)%Z; simpl; try done;
    by rewrite (ZC4 m2 m1).
Qed.

Lemma float_leb_not_ltb (x y : float) :
  (x <=? y)%float = true -> (y <? x)%float = false.
Proof.
  rewrite FloatAxioms.leb_spec, FloatAxioms.ltb_spec. unfold SFleb, SFltb.
  rewrite (SFcompare_swap (Prim2SF x) (Prim2SF y)).
  by destruct (SFcompare (Prim2SF x) (Prim2SF y)) as [[]|].
Qed.

Lemma SFcompare_numbers (x y : spec_float) :
  SFeqb x x = true -> SFeqb y y = true -> exists c, SFcompare x y = Some c.
Proof.
  unfold SFeqb. destruct x as [s1|s1| |s1 m1 e1], y as [s2|s2| |s2 m2 e2];
    simpl; try done; eauto.
Qed.

Lemma float_not_leb_ltb (x y : float) :
  (x =? x)%float = true -> (y =? y)%float = true ->
  (x <=? y)%float = false -> (y <? x)%float = true.
Proof.
  rewrite !FloatAxioms.eqb_spec, FloatAxioms.leb_spec, FloatAxioms.ltb_spec.
  intros Hx Hy. unfold SFleb, SFltb.
  rewrite (SFcompare_swap (Prim2SF x) (Prim2SF y)).
  destruct (SFcompare_numbers _ _ Hx Hy) as [c ->]. by destruct c.
Qed.

(** Within [0,2] the speed is formatted. *)
Lemma speed_to_rate_in_range (speed : float) :
  (0 <=? speed)%float = true -> (speed <=? 2)%float = true ->
  speed_to_rate speed = Ok (Py.format_plus_0f ((speed - 1) * 100) +:+ "%").
Proof.
  intros Hlow Hhigh. unfold speed_to_rate.
  by rewrite (float_leb_not_ltb _ _ Hlow), (float_leb_not_ltb _ _ Hhigh).
Qed.

(** A speed that is a number and is outside [0,2] is refused. *)
Lemma speed_to_rate_out_of_range (speed : float) :
  (speed =? speed)%float = true ->
  ((0 <=? speed) && (speed <=? 2))%float = false ->
  speed_to_rate speed
  = Raise (ValueError "Speed must be between 0 and 2 (inclusive).").
Proof.
  intros Hnum Hout. unfold speed_to_rate.
  apply andb_false_iff in Hout as [Hlow|Hhigh].
  - by rewrite (float_not_leb_ltb 0 speed eq_refl Hnum Hlow).
  - rewrite (float_not_leb_ltb speed 2 Hnum eq_refl Hhigh). by rewrite orb_true_r.
Qed.

(** A NaN speed is formatted too: both tests of the guard are false. *)
Lemma speed_to_rate_not_a_number (speed : float) :
  (speed =? speed)%float = false ->
  speed_to_rate speed = Ok (Py.format_plus_0f ((speed - 1) * 100) +:+ "%").
Proof.
  intros Hnan. unfold speed_to_rate.
  assert ((speed <? 0)%float = false /\ (2 <? speed)%float = false) as [-> ->]; [|done].
  revert Hnan. rewrite FloatAxioms.eqb_spec, !FloatAxioms.ltb_spec.
  unfold SFeqb, SFltb.
  change (Prim2SF 0) with (S754_zero false).
  change (Prim2SF 2) with (S754_finite false 4503599627370496 (-51)).
  destruct (Prim2SF speed) as [s|s| |s m e]; simpl; try done.
  - by destruct s.
  - rewrite Z.compare_refl, Pos.compare_cont_refl. by destruct s.
Qed.

(** The digits printed are those of an integer nearest to [m * 2^e]: it is
    [m * 2^e] itself when [e] is not negative; otherwise, with [d = 2^(-e)],
    it is an [n] with [|m - n * d| <= d / 2]. *)
Lemma round_half_even_nearest (m : positive) (e : Z) :
  let n := Z.of_N (Py.round_half_even m e) in
  if (0 <=? e)%Z then n = (Z.pos m * 2 ^ e)%Z
  else (2 * Z.abs (Z.pos m - n * 2 ^ (- e)) <= 2 ^ (- e))%Z.
Proof.
  unfold Py.round_half_even. destruct (0 <=? e)%Z eqn:He; simpl.
  - apply Z.leb_le in He. rewrite N2Z.inj_mul, N2Z.inj_pow, Z2N.id by done. done.
  - apply Z.leb_gt in He.
    set (d := (2 ^ Z.to_N (- e))%N).
    assert (Z.of_N d = 2 ^ (- e))%Z as Hd.
    { subst d. rewrite N2Z.inj_pow, Z2N.id by lia. done. }
    assert (d <> 0)%N as Hd0 by (subst d; apply N.pow_nonzero; lia).
    pose proof (N.div_mod (N.pos m) d Hd0) as Hdiv.
    pose proof (N.mod_lt (N.pos m) d Hd0) as Hmod.
    rewrite <- Hd.
    set (q := (N.pos m / d)%N) in *. set (r := (N.pos m mod d)%N) in *.
    assert (Z.pos m = Z.of_N d * Z.of_N q + Z.of_N r)%Z as Hm.
    { rewrite <- N2Z.inj_mul, <- N2Z.inj_add, <- Hdiv. done. }
    clearbody q r. clearbody d. clear Hdiv Hd He.
    destruct (2 * r ?= d)%N eqn:Hcmp.
    + apply N.compare_eq in Hcmp. destruct (N.even q).
      * nia.
      * rewrite N2Z.inj_add. nia.
    + rewrite N.compare_lt_iff in Hcmp. nia.
    + rewrite N.compare_gt_iff in Hcmp. rewrite N2Z.inj_add. nia.
Qed.

(** ** Strings *)

Lemma string_app_length (s t : string) :
  String.length (s +:+ t) = String.length s + String.length t.
Proof. induction s as [|a s IH]; simpl; [done | by rewrite IH]. Qed.

Lemma string_app_assoc (s t u : string) : s +:+ (t +:+ u) = (s +:+ t) +:+ u.
Proof.
  induction s as [|a s IH]; [done|].
  change (String a (s +:+ (t +:+ u)) = String a ((s +:+ t) +:+ u)).
  by rewrite IH.
Qed.

Lemma string_app_inv_tail (s1 s2 t : string) : s1 +:+ t = s2 +:+ t -> s1 = s2.
Proof.
  revert s2; induction s1 as [|a s1 IH]; intros [|b s2] H; simpl in *.
  - done.
  - apply (f_equal String.length) in H.
    rewrite ?string_app_length in H; simpl in H.
    rewrite ?string_app_length in H; lia.
  - apply (f_equal String.length) in H.
    rewrite ?string_app_length in H; simpl in H.
    rewrite ?string_app_length in H; lia.
  - injection H as -> H. by rewrite (IH _ H).
Qed.

Lemma prefix_refl (s : string) : String.prefix s s = true.
Proof. induction s as [|a s IH]; simpl; [done|]. by destruct (Ascii.ascii_dec a a). Qed.

Lemma contains_app_r (p s : string) : Py.contains s (p +:+ s) = true.
Proof.
  induction p as [|a p IH]; simpl.
  - destruct s; simpl; [done|]. rewrite prefix_refl.
    by destruct (Ascii.ascii_dec a a).
  - rewrite IH. apply orb_true_r.
Qed.

Lemma endswith_refl (s : string) : Py.endswith s s = true.
Proof. destruct s; simpl; [done|]. by rewrite String.eqb_refl, Ascii.eqb_refl. Qed.

Lemma endswith_app_l (p q s : string) :
  Py.endswith s q = true -> Py.endswith s (p +:+ q) = true.
Proof.
  intros Hq. induction p as [|a p IH]; simpl; [done|].
  rewrite IH. apply orb_true_r.
Qed.

(** ** Temporary names are new *)

Lemma tmp_name_inj (suffix : string) : Inj (=) (=) (tmp_name suffix).
Proof.
  intros n m H. unfold tmp_name in H.
  apply String.app_inj in H. apply string_app_inv_tail in H.
  by apply (inj pretty) in H.
Qed.

Lemma elem_of_candidates suffix n p :
  p ∈ candidates suffix n <-> exists k, k < n /\ p = tmp_name suffix k.
Proof.
  unfold candidates. rewrite elem_of_list_to_set, list_elem_of_fmap.
  split.
  - intros (k & -> & Hk). apply elem_of_seq in Hk. exists k. split; [lia | done].
  - intros (k & Hk & ->). exists k. split; [done|]. apply elem_of_seq. lia.
Qed.

Lemma first_free_fresh (X : gset string) suffix fuel n :
  size (X ∖ candidates suffix n) <= fuel ->
  first_free X suffix fuel n ∉ X.
Proof.
  revert n. induction fuel as [|fuel IH]; intros n Hsize; simpl.
  - assert (X ∖ candidates suffix n = ∅) as Hempty.
    { apply leibniz_equiv, size_empty_inv. lia. }
    intros Hin.
    assert (tmp_name suffix n ∈ X ∖ candidates suffix n) as Hin'.
    { apply elem_of_difference. split; [done|].
      rewrite elem_of_candidates. intros (k & Hk & Heq).
      apply tmp_name_inj in Heq. lia. }
    rewrite Hempty in Hin'. by apply not_elem_of_empty in Hin'.
  - destruct (decide (tmp_name suffix n ∈ X)) as [Hin|Hnin]; [|done].
    apply IH.
    assert (X ∖ candidates suffix (S n) ⊂ X ∖ candidates suffix n) as Hsub.
    { split.
      - intros p. rewrite !elem_of_difference, !elem_of_candidates.
        intros [Hp Hk]. split; [done|].
        intros (k & Hlt & ->). apply Hk. exists k. split; [lia | done].
      - intros Hsub. specialize (Hsub (tmp_name suffix n)).
        rewrite !elem_of_difference, !elem_of_candidates in Hsub.
        destruct Hsub as [_ Hk].
        + split; [done|]. intros (k & Hlt & Heq).
          apply tmp_name_inj in Heq. lia.
        + apply Hk. exists n. split; [lia | done]. }
    apply subset_size in Hsub. lia.
Qed.

Lemma fresh_tmp_fresh (X : gset string) suffix : fresh_tmp X suffix ∉ X.
Proof.
  apply first_free_fresh. apply subseteq_size.
  intros p Hp. apply elem_of_difference in Hp. tauto.
Qed.

Lemma first_free_is_candidate X suffix fuel n :
  exists k, first_free X suffix fuel n = tmp_name suffix k.
Proof.
  revert n. induction fuel as [|fuel IH]; intros n; simpl; [by exists n|].
  destruct (decide (tmp_name suffix n ∈ X)); [apply IH | by exists n].
Qed.

Lemma fresh_tmp_endswith (X : gset string) suffix :
  Py.endswith suffix (fresh_tmp X suffix) = true.
Proof.
  destruct (first_free_is_candidate X suffix (size X) 0) as [k Hk].
  unfold fresh_tmp. rewrite Hk. unfold tmp_name.
  do 2 apply endswith_app_l. apply endswith_refl.
Qed.

(** ** A temporary name has one dot, that of its suffix *)

Lemma dotless_app (s t : string) :
  dotless s = true -> dotless t = true -> dotless (s +:+ t) = true.
Proof.
  intros Hs Ht. induction s as [|c s IH]; simpl in *; [done|].
  apply andb_true_iff in Hs as [Hc Hs]. by rewrite Hc, IH.
Qed.

Lemma pretty_N_go_dotless (x : N) (s : string) :
  dotless s = true -> dotless (pretty_N_go x s) = true.
Proof.
  revert s. induction (N.lt_wf_0 x) as [x _ IH]. intros s Hs.
  destruct (decide (x = 0%N)) as [->|Hx]; [by rewrite pretty_N_go_0|].
  rewrite pretty_N_go_step by lia.
  apply IH; [apply N.div_lt; lia|].
  simpl. rewrite Hs, andb_true_r.
  unfold pretty_N_char. by repeat case_match.
Qed.

Lemma pretty_nat_dotless (n : nat) : dotless (pretty n) = true.
Proof.
  unfold pretty, pretty_nat, pretty, pretty_N.
  case_decide; [done|]. by apply pretty_N_go_dotless.
Qed.

Lemma endswith_cons (suf : string) (c : ascii) (s : string) :
  Py.endswith suf (String c s) = String.eqb suf (String c s) || Py.endswith suf s.
Proof. done. Qed.

Lemma string_eqb_cons (a b : ascii) (s t : string) :
  String.eqb (String a s) (String b t)
  = if Ascii.eqb a b then String.eqb s t else false.
Proof. done. Qed.

Lemma endswith_dot_mp3 (stem fmt : string) :
  dotless stem = true ->
  Py.endswith ("." +:+ fmt) (stem +:+ ".mp3") = true -> fmt = "mp3".
Proof.
  change ("." +:+ fmt) with (String "."%char fmt).
  intros Hstem. induction stem as [|c stem IH].
  - simpl. rewrite !orb_false_r. by intros ->%String.eqb_eq.
  - simpl in Hstem. apply andb_true_iff in Hstem as [Hc Hstem].
    apply negb_true_iff in Hc. rewrite Ascii.eqb_sym in Hc.
    change (String c stem +:+ ".mp3") with (String c (stem +:+ ".mp3")).
    rewrite endswith_cons, string_eqb_cons, Hc. simpl. by apply IH.
Qed.

Lemma fresh_tmp_mp3_only_suffix (X : gset string) (fmt : string) :
  fmt <> "mp3" -> Py.endswith ("." +:+ fmt) (fresh_tmp X ".mp3") = false.
Proof.
  intros Hfmt. apply not_true_is_false. intros Hends. apply Hfmt.
  destruct (first_free_is_candidate X ".mp3" (size X) 0) as [k Hk].
  unfold fresh_tmp in Hends. rewrite Hk in Hends. unfold tmp_name in Hends.
  rewrite string_app_assoc in Hends.
  apply endswith_dot_mp3 in Hends; [done|].
  apply dotless_app; [done | apply pretty_nat_dotless].
Qed.

(** ** Running the pipeline *)

Lemma is_ffmpeg_installed_run E w :
  is_ffmpeg_installed E w
  = (Ok (ffmpeg_available E), emit (EvRun ["ffmpeg"; "-version"]) w).
Proof.
  unfold is_ffmpeg_installed, ffmpeg_available, bind, subprocess_run, ret.
  by destruct (run E ["ffmpeg"; "-version"]).
Qed.

Lemma deletions_app evs1 evs2 :
  deletions (evs1 ++ evs2) = (deletions evs1 ++ deletions evs2)%list.
Proof. apply omap_app. Qed.

Lemma runs_app evs1 evs2 : runs (evs1 ++ evs2) = (runs evs1 ++ runs evs2)%list.
Proof. apply omap_app. Qed.

Lemma union_singleton_twice (p : string) (X : gset string) :
  {[p]} ∪ ({[p]} ∪ X) = {[p]} ∪ X.
Proof. set_solver. Qed.

Ltac run_pipeline :=
  unfold generate_speech, _generate_audio, bind, ret, raise,
    NamedTemporaryFile, Communicate_save, subprocess_run, unlink, emit;
  simpl.

(** The pipeline when the synthesis call raises: the exception leaves
    [_generate_audio] after the temporary file was created. *)
Lemma generate_audio_synthesis_fails E text voice response_format speed w cause :
  edge_save E text voice (speed_rate speed) = Some cause ->
  let native := fresh_tmp (disk w) ".mp3" in
  let R := _generate_audio E text voice response_format speed w in
  fst R = Raise (SynthesisFailure cause)
  /\ disk (snd R) = {[native]} ∪ disk w
  /\ trace (snd R)
     = (trace w ++ [EvTemp ".mp3" native;
                    EvSave text voice (speed_rate speed) native])%list.
Proof.
  intros Hsave native R. subst R. run_pipeline. rewrite Hsave. simpl.
  by rewrite <- app_assoc.
Qed.

(** The pipeline when the caller asked for mp3. *)
Lemma generate_audio_mp3 E text voice speed w :
  edge_save E text voice (speed_rate speed) = None ->
  let native := fresh_tmp (disk w) ".mp3" in
  let R := _generate_audio E text voice "mp3" speed w in
  fst R = Ok native
  /\ disk (snd R) = {[native]} ∪ disk w
  /\ trace (snd R)
     = (trace w ++ [EvTemp ".mp3" native;
                    EvSave text voice (speed_rate speed) native])%list.
Proof.
  intros Hsave native R. subst R. run_pipeline. rewrite Hsave. simpl.
  by rewrite union_singleton_twice, <- app_assoc.
Qed.

(** The pipeline when another format was asked for and the probe for the
    encoder fails. *)
Lemma generate_audio_no_encoder E text voice response_format speed w :
  edge_save E text voice (speed_rate speed) = None ->
  response_format <> "mp3" ->
  ffmpeg_available E = false ->
  let native := fresh_tmp (disk w) ".mp3" in
  let R := _generate_audio E text voice response_format speed w in
  fst R = Ok native
  /\ disk (snd R) = {[native]} ∪ disk w
  /\ trace (snd R)
     = (trace w ++ [EvTemp ".mp3" native;
                    EvSave text voice (speed_rate speed) native;
                    EvRun ["ffmpeg"; "-version"]])%list.
Proof.
  intros Hsave Hfmt Hprobe native R. subst R. run_pipeline. rewrite Hsave. simpl.
  apply String.eqb_neq in Hfmt. rewrite Hfmt.
  rewrite is_ffmpeg_installed_run, Hprobe. simpl.
  by rewrite union_singleton_twice, <- !app_assoc.
Qed.

(** The pipeline when another format was asked for and the encoder is
    there: the three outcomes of the conversion. *)
Lemma generate_audio_encoder E text voice response_format speed w :
  edge_save E text voice (speed_rate speed) = None ->
  response_format <> "mp3" ->
  ffmpeg_available E = true ->
  let native := fresh_tmp (disk w) ".mp3" in
  let converted := fresh_tmp ({[native]} ∪ disk w) ("." +:+ response_format) in
  let cmd := ffmpeg_command native response_format converted in
  let started :=
    (trace w ++ [EvTemp ".mp3" native;
                 EvSave text voice (speed_rate speed) native;
                 EvRun ["ffmpeg"; "-version"];
                 EvTemp ("." +:+ response_format) converted;
                 EvRun cmd])%list in
  let R := _generate_audio E text voice response_format speed w in
  match run E cmd with
  | Completed =>
      fst R = Ok converted
      /\ disk (snd R) = {[converted]} ∪ disk w
      /\ trace (snd R) = (started ++ [EvUnlink native])%list
  | CalledProcessError returncode stderr =>
      fst R = Raise (RuntimeError (error_message E cmd returncode stderr))
      /\ disk (snd R) = disk w
      /\ trace (snd R) = (started ++ [EvUnlink converted; EvUnlink native])%list
  | NoSuchBinary =>
      fst R = Raise FileNotFoundError
      /\ disk (snd R) = {[converted]} ∪ ({[native]} ∪ disk w)
      /\ trace (snd R) = started
  end.
Proof.
  intros Hsave Hfmt Hprobe native converted cmd started R.
  assert (native ∉ disk w) as Hnative by apply fresh_tmp_fresh.
  assert (converted ∉ {[native]} ∪ disk w) as Hconverted by apply fresh_tmp_fresh.
  subst R. run_pipeline. rewrite Hsave. simpl.
  apply String.eqb_neq in Hfmt. rewrite Hfmt.
  rewrite is_ffmpeg_installed_run, Hprobe. simpl.
  rewrite union_singleton_twice.
  fold native. fold converted. fold cmd.
  destruct (run E cmd) as [|returncode stderr|]; simpl;
    (split; [done|]); (split; [|subst started; by rewrite <- ?app_assoc]).
  - set_solver.
  - set_solver.
  - done.
Qed.

(** The speed reaches the pipeline only through the rate string. *)
Lemma generate_audio_rate_only E text voice response_format speed1 speed2 w :
  speed_rate speed1 = speed_rate speed2 ->
  _generate_audio E text voice response_format speed1 w
  = _generate_audio E text voice response_format speed2 w.
Proof. intros Hrate. unfold _generate_audio. by rewrite Hrate. Qed.

(** Every run of [_generate_audio] names a temporary mp3 file and makes the
    synthesis call with it next; every exception it ends with is that of the
    synthesis call, of the failed conversion, or of the missing binary. *)
Lemma generate_audio_any E text voice response_format speed w :
  let native := fresh_tmp (disk w) ".mp3" in
  let R := _generate_audio E text voice response_format speed w in
  (exists evs,
     trace (snd R)
     = (trace w ++ EvTemp ".mp3" native
                :: EvSave text voice (speed_rate speed) native :: evs)%list)
  /\ (forall msg, fst R <> Raise (ValueError msg)).
Proof.
  intros native R.
  destruct (edge_save E text voice (speed_rate speed)) as [cause|] eqn:Hsave.
  { destruct (generate_audio_synthesis_fails E text voice response_format speed w
                cause Hsave) as (Hres & _ & Htrace).
    subst R. rewrite Hres, Htrace. split; [by exists [] | done]. }
  destruct (decide (response_format = "mp3")) as [->|Hfmt].
  { destruct (generate_audio_mp3 E text voice speed w Hsave) as (Hres & _ & Htrace).
    subst R. rewrite Hres, Htrace. split; [by exists [] | done]. }
  destruct (ffmpeg_available E) eqn:Hprobe.
  - pose proof (generate_audio_encoder E text voice response_format speed w
                  Hsave Hfmt Hprobe) as Hrun.
    simpl in Hrun. fold native R in Hrun.
    destruct (run E _) in Hrun; destruct Hrun as (Hres & _ & Htrace);
      rewrite Hres, Htrace; (split; [|done]);
      rewrite <- ?app_assoc; simpl; eauto.
  - destruct (generate_audio_no_encoder E text voice response_format speed w
                Hsave Hfmt Hprobe) as (Hres & _ & Htrace).
    subst R. rewrite Hres, Htrace. split; [by eexists | done].
Qed.

(** ** Voice resolution *)

Lemma mapped_voice_absent (voice : string) :
  voice_mapping !! voice = None -> mapped_voice voice = voice.
Proof. intros Hnone. unfold mapped_voice, dict_get. by rewrite Hnone. Qed.

Lemma contains_multilingual_voice :
  Py.contains "Multilingual" MULTILINGUAL_VOICE = true.
Proof. vm_compute. reflexivity. Qed.

(** The language rule, case by case. *)
Lemma language_rule_applies (lang v : string) :
  Py.startswith "en-" v = true ->
  Py.contains "Multilingual" v = false ->
  language_rule lang v
  = match LANGUAGE_VOICE_OVERRIDES !! lang with
    | Some override => override
    | None => if String.eqb lang "en" then v else MULTILINGUAL_VOICE
    end.
Proof.
  intros Hen Hmulti. unfold language_rule. rewrite Hen, Hmulti. simpl.
  destruct (LANGUAGE_VOICE_OVERRIDES !! lang); [done|].
  by destruct (String.eqb lang "en").
Qed.

Lemma language_rule_exempt (lang v : string) :
  Py.startswith "en-" v = false \/ Py.contains "Multilingual" v = true ->
  language_rule lang v = v.
Proof.
  intros [Hen|Hmulti]; unfold language_rule.
  - by rewrite Hen.
  - by rewrite Hmulti, andb_false_r.
Qed.

(** ** The codec tables *)

Lemma codec_table_absent (response_format : string) :
  response_format ∉ ["aac"; "mp3"; "wav"; "opus"; "flac"] ->
  codec_table !! response_format = None
  /\ container_table !! response_format = None.
Proof.
  intros Hnot. rewrite !not_elem_of_cons in Hnot.
  destruct Hnot as (? & ? & ? & ? & ? & _).
  unfold codec_table, container_table.
  by rewrite !lookup_insert_ne, !lookup_empty.
Qed.

(** * The claims *)

(** ** C1: temporary files after the pipeline returns *)

(** C1 (the code breaks it). The claim: whatever way [generate_speech]
    ends, no temporary file other than the one returned stays on disk, and
    after a failed synthesis no file of the request stays. The code: when
    [Communicate.save] raises, the exception leaves [_generate_audio] with
    the temporary mp3, created with [delete=False], still on disk. Here the
    request is text Hello, voice alloy, format mp3, speed 1.0, on an empty
    disk, and the synthesis call raises. *)
Theorem C1_failed_synthesis_leaves_its_temp_file :
  let E := demo_env (Some "en") (Some "No audio was received") Completed Completed true in
  let R := generate_speech E "Hello" "alloy" "mp3" 1 empty_world in
  fst R = Raise (SynthesisFailure "No audio was received")
  /\ disk empty_world = ∅
  /\ disk (snd R) = {["/tmp/tmp0.mp3"]}.
Proof.
  intros E R.
  destruct (generate_audio_synthesis_fails E "Hello" (resolved_voice E "alloy" "Hello")
              "mp3" 1 empty_world "No audio was received" eq_refl)
    as (Hres & Hdisk & _).
  split; [exact Hres|]. split; [done|].
  subst R. unfold generate_speech. rewrite Hdisk.
  simpl. rewrite (right_id_L ∅ (∪)). f_equal.
Qed.

(** ** C2: override and multilingual fallback *)

(** C2, as stated, fails: the voice [en-US-AvaMultilingualNeural], passed as
    the selector, begins with [en-] and is not the multilingual voice
    [en-US-AndrewMultilingualNeural]; the text is detected as Russian, which
    has an override; and yet the resolved voice is not the override. *)
Lemma C2_counterexample :
  let E := demo_env (Some "ru") None Completed Completed true in
  let voice := "en-US-AvaMultilingualNeural" in
  let text := "Привет мир" in
  Py.startswith "en-" (mapped_voice voice) = true
  /\ mapped_voice voice <> MULTILINGUAL_VOICE
  /\ LANGUAGE_VOICE_OVERRIDES !! detected_lang E text = Some "ru-RU-DmitryNeural"
  /\ resolved_voice E voice text = "en-US-AvaMultilingualNeural"
  /\ resolved_voice E voice text <> "ru-RU-DmitryNeural".
Proof.
  intros E voice text.
  split; [vm_compute; reflexivity|].
  split; [vm_compute; discriminate|].
  split; [vm_compute; reflexivity|].
  split; [vm_compute; reflexivity | vm_compute; discriminate].
Qed.

(** C2, amended. When the voice of step 1 begins with [en-] and does not
    contain [Multilingual]: if the detected language has an entry in
    [LANGUAGE_VOICE_OVERRIDES] the resolved voice is that entry, and
    otherwise, if the detected language is not [en], it is
    [MULTILINGUAL_VOICE]. For the alias alloy, a text detected as Russian
    resolves to [ru-RU-DmitryNeural] and a text detected as French to
    [MULTILINGUAL_VOICE]. *)
Theorem C2_override_and_fallback E :
  (forall voice text,
     Py.startswith "en-" (mapped_voice voice) = true ->
     Py.contains "Multilingual" (mapped_voice voice) = false ->
     (forall override,
        LANGUAGE_VOICE_OVERRIDES !! detected_lang E text = Some override ->
        resolved_voice E voice text = override)
     /\ (LANGUAGE_VOICE_OVERRIDES !! detected_lang E text = None ->
         detected_lang E text <> "en" ->
         resolved_voice E voice text = MULTILINGUAL_VOICE))
  /\ (forall text, detect E text = Some "ru" ->
        resolved_voice E "alloy" text = "ru-RU-DmitryNeural")
  /\ (forall text, detect E text = Some "fr" ->
        resolved_voice E "alloy" text = MULTILINGUAL_VOICE).
Proof.
  split; [|split].
  - intros voice text Hen Hmulti. unfold resolved_voice.
    rewrite (language_rule_applies _ _ Hen Hmulti). split.
    + by intros override ->.
    + intros -> Hlang. apply String.eqb_neq in Hlang. by rewrite Hlang.
  - intros text Hru. unfold resolved_voice, detected_lang. rewrite Hru.
    vm_compute. reflexivity.
  - intros text Hfr. unfold resolved_voice, detected_lang. rewrite Hfr.
    vm_compute. reflexivity.
Qed.

(** The rule at work: the aliases echo and alloy, a text detected as Russian
    and one detected as French. *)
Lemma C2_override_and_fallback_witness :
  let Eru := demo_env (Some "ru") None Completed Completed true in
  let Efr := demo_env (Some "fr") None Completed Completed true in
  (Py.startswith "en-" (mapped_voice "echo") = true
   /\ Py.contains "Multilingual" (mapped_voice "echo") = false
   /\ LANGUAGE_VOICE_OVERRIDES !! detected_lang Eru "Привет мир" = Some "ru-RU-DmitryNeural"
   /\ LANGUAGE_VOICE_OVERRIDES !! detected_lang Efr "Bonjour le monde" = None
   /\ detected_lang Efr "Bonjour le monde" <> "en")
  /\ resolved_voice Eru "echo" "Привет мир" = "ru-RU-DmitryNeural"
  /\ resolved_voice Efr "echo" "Bonjour le monde" = MULTILINGUAL_VOICE
  /\ resolved_voice Eru "alloy" "Привет мир" = "ru-RU-DmitryNeural"
  /\ resolved_voice Efr "alloy" "Bonjour le monde" = MULTILINGUAL_VOICE.
Proof.
  intros Eru Efr.
  assert (Py.startswith "en-" (mapped_voice "echo") = true) as Hen
    by (vm_compute; reflexivity).
  assert (Py.contains "Multilingual" (mapped_voice "echo") = false) as Hmulti
    by (vm_compute; reflexivity).
  assert (LANGUAGE_VOICE_OVERRIDES !! detected_lang Eru "Привет мир"
          = Some "ru-RU-DmitryNeural") as Hru by (vm_compute; reflexivity).
  assert (LANGUAGE_VOICE_OVERRIDES !! detected_lang Efr "Bonjour le monde" = None)
    as Hfr by (vm_compute; reflexivity).
  assert (detected_lang Efr "Bonjour le monde" <> "en") as Hlang
    by (vm_compute; discriminate).
  split; [done|].
  destruct (C2_override_and_fallback Eru) as (Hrule_ru & Halloy_ru & _).
  destruct (C2_override_and_fallback Efr) as (Hrule_fr & _ & Halloy_fr).
  split; [exact (proj1 (Hrule_ru "echo" "Привет мир" Hen Hmulti) _ Hru)|].
  split; [exact (proj2 (Hrule_fr "echo" "Bonjour le monde" Hen Hmulti) Hfr Hlang)|].
  split; [exact (Halloy_ru "Привет мир" eq_refl) | exact (Halloy_fr "Bonjour le monde" eq_refl)].
Defined.

(** ** C3: the arguments of the encoder *)

(** C3, as stated, fails: for flac the command line does hold a bitrate
    argument. The request is text Hello, voice alloy, format flac, speed 1.0,
    on an empty disk, with the encoder available. *)
Lemma C3_counterexample :
  let E := demo_env (Some "en") None Completed Completed true in
  let R := generate_speech E "Hello" "alloy" "flac" 1 empty_world in
  trace (snd R)
  = [EvTemp ".mp3" "/tmp/tmp0.mp3";
     EvSave "Hello" "en-US-AvaNeural" "+0%" "/tmp/tmp0.mp3";
     EvRun ["ffmpeg"; "-version"];
     EvTemp ".flac" "/tmp/tmp0.flac";
     EvRun ["ffmpeg"; "-i"; "/tmp/tmp0.mp3"; "-c:a"; "flac"; "-b:a"; "192k";
            "-f"; "flac"; "-y"; "/tmp/tmp0.flac"];
     EvUnlink "/tmp/tmp0.mp3"]
  /\ "-b:a" ∈ ffmpeg_command "/tmp/tmp0.mp3" "flac" "/tmp/tmp0.flac".
Proof.
  intros E R. split; [vm_compute; reflexivity|].
  vm_compute. set_solver.
Qed.

(** C3, amended. For a format other than mp3, with the encoder available,
    after the synthesis call succeeded: once the temporary file for the
    converted audio has been created (line 62 returned), [subprocess.run] is
    called with [ffmpeg_command], and no command is run but the probe and
    that one. [ffmpeg_command] holds the codec and the container of the
    tables, and the bitrate argument [-b:a 192k] for every format but wav.
    So wav gets [pcm_s16le], container [wav], no bitrate; flac gets [flac],
    container [flac] and the bitrate 192k; aac gets [aac], container [mp4],
    192k; opus gets [libopus], container [ogg], 192k; a format that is in no
    table gets [aac], its own name as container, 192k. *)
Theorem C3_encoder_arguments E text voice response_format speed w :
  response_format <> "mp3" ->
  ffmpeg_available E = true ->
  edge_save E text voice (speed_rate speed) = None ->
  let native := fresh_tmp (disk w) ".mp3" in
  let converted := fresh_tmp ({[native]} ∪ disk w) ("." +:+ response_format) in
  let cmd := ffmpeg_command native response_format converted in
  let R := _generate_audio E text voice response_format speed w in
  (EvTemp ("." +:+ response_format) converted ∈ trace (snd R) ->
   EvRun cmd ∈ trace (snd R))
  /\ (forall cmd', cmd' ∈ runs (trace (snd R)) ->
        cmd' ∈ runs (trace w) \/ cmd' = ["ffmpeg"; "-version"] \/ cmd' = cmd)
  /\ (response_format = "wav" ->
      cmd = ["ffmpeg"; "-i"; native; "-c:a"; "pcm_s16le";
             "-f"; "wav"; "-y"; converted])
  /\ (response_format = "flac" ->
      cmd = ["ffmpeg"; "-i"; native; "-c:a"; "flac"; "-b:a"; "192k";
             "-f"; "flac"; "-y"; converted])
  /\ (response_format = "aac" ->
      cmd = ["ffmpeg"; "-i"; native; "-c:a"; "aac"; "-b:a"; "192k";
             "-f"; "mp4"; "-y"; converted])
  /\ (response_format = "opus" ->
      cmd = ["ffmpeg"; "-i"; native; "-c:a"; "libopus"; "-b:a"; "192k";
             "-f"; "ogg"; "-y"; converted])
  /\ (response_format ∉ ["aac"; "mp3"; "wav"; "opus"; "flac"] ->
      cmd = ["ffmpeg"; "-i"; native; "-c:a"; "aac"; "-b:a"; "192k";
             "-f"; response_format; "-y"; converted]).
Proof.
  intros Hfmt Hprobe Hsave native converted cmd R.
  pose proof (generate_audio_encoder E text voice response_format speed w
                Hsave Hfmt Hprobe) as Hrun.
  simpl in Hrun. fold native converted cmd R in Hrun.
  assert (exists tail,
            trace (snd R)
            = (trace w ++ [EvTemp ".mp3" native;
                           EvSave text voice (speed_rate speed) native;
                           EvRun ["ffmpeg"; "-version"];
                           EvTemp ("." +:+ response_format) converted;
                           EvRun cmd] ++ tail)%list
            /\ runs tail = []) as (tail & Htrace & Htail).
  { destruct (run E cmd); destruct Hrun as (_ & _ & ->);
      rewrite <- ?app_assoc; eexists; (split; [reflexivity|]); done. }
  split.
  { intros _. rewrite Htrace, !elem_of_app, !elem_of_cons. tauto. }
  split.
  { intros cmd'. rewrite Htrace, !runs_app, Htail. simpl.
    rewrite !elem_of_app, !elem_of_cons, elem_of_nil. tauto. }
  subst cmd. generalize native converted. clear. intros native converted.
  repeat split.
  - by intros ->.
  - by intros ->.
  - by intros ->.
  - by intros ->.
  - intros Habsent.
    destruct (codec_table_absent _ Habsent) as [Hcodec Hcontainer].
    rewrite !not_elem_of_cons in Habsent.
    destruct Habsent as (_ & _ & Hwav & _).
    apply String.eqb_neq in Hwav.
    unfold ffmpeg_command, dict_get. by rewrite Hcodec, Hcontainer, Hwav.
Qed.

(** The command line for a format that is in no table, webm. *)
Lemma C3_encoder_arguments_witness :
  let E := demo_env (Some "en") None Completed Completed true in
  let native := fresh_tmp ∅ ".mp3" in
  let converted := fresh_tmp ({[native]} ∪ ∅) ("." +:+ "webm") in
  let cmd := ffmpeg_command native "webm" converted in
  let R := _generate_audio E "Hello" "en-US-AvaNeural" "webm" 1 empty_world in
  ("webm" <> "mp3"
   /\ ffmpeg_available E = true
   /\ edge_save E "Hello" "en-US-AvaNeural" (speed_rate 1) = None
   /\ EvTemp ("." +:+ "webm") converted ∈ trace (snd R)
   /\ "webm" ∉ ["aac"; "mp3"; "wav"; "opus"; "flac"])
  /\ EvRun cmd ∈ trace (snd R)
  /\ cmd = ["ffmpeg"; "-i"; native; "-c:a"; "aac"; "-b:a"; "192k";
            "-f"; "webm"; "-y"; converted].
Proof.
  intros E native converted cmd R.
  assert ("webm" <> "mp3") as Hfmt by discriminate.
  assert ("webm" ∉ ["aac"; "mp3"; "wav"; "opus"; "flac"]) as Habsent.
  { rewrite !not_elem_of_cons. repeat split; try discriminate.
    apply not_elem_of_nil. }
  assert (EvTemp ("." +:+ "webm") converted ∈ trace (snd R)) as Hcreated.
  { apply list_elem_of_In. vm_compute. tauto. }
  split.
  { split; [exact Hfmt|]. split; [reflexivity|]. split; [reflexivity|].
    split; [exact Hcreated | exact Habsent]. }
  destruct (C3_encoder_arguments E "Hello" "en-US-AvaNeural" "webm" 1 empty_world
              Hfmt eq_refl eq_refl) as (Hrun & _ & _ & _ & _ & _ & Hother).
  split; [exact (Hrun Hcreated) | exact (Hother Habsent)].
Defined.

(** ** C4: the speed codec *)

(** C4 (the code breaks it). The claim: every speed outside [0,2] makes
    [speed_to_rate] fail. The code tests [speed < 0 or speed > 2]; both
    comparisons are false for a NaN, which is not in [0,2] either, so a NaN
    speed is formatted instead of being refused. *)
Theorem C4_nan_speed_is_not_refused :
  ((0 <=? nan) && (nan <=? 2))%float = false
  /\ speed_to_rate nan = Ok "+nan%".
Proof. split; vm_compute; reflexivity. Qed.

(** ** C5: the two outcomes of the conversion *)

(** C5, as stated, fails: with [DETAILED_ERROR_LOGGING] off, the message of
    the exception raised after a failed conversion is built from [str(e)],
    which names the command and the exit status, and does not carry what
    the encoder wrote on its error stream. The request is text Hello, voice
    alloy, format wav, speed 1.0, on an empty disk; the encoder exits with
    status 1. *)
Lemma C5_counterexample :
  let stderr := "Invalid data found when processing input" in
  let E := demo_env (Some "en") None Completed (CalledProcessError 1 stderr) false in
  let R := generate_speech E "Hello" "alloy" "wav" 1 empty_world in
  fst R = Raise (RuntimeError
    "FFmpeg error during audio conversion: Command '['ffmpeg', '-i', '/tmp/tmp0.mp3', '-c:a', 'pcm_s16le', '-f', 'wav', '-y', '/tmp/tmp0.wav']' returned non-zero exit status 1.")
  /\ forall msg, fst R = Raise (RuntimeError msg) -> Py.contains stderr msg = false.
Proof.
  intros stderr E R.
  assert (fst R = Raise (RuntimeError
    "FFmpeg error during audio conversion: Command '['ffmpeg', '-i', '/tmp/tmp0.mp3', '-c:a', 'pcm_s16le', '-f', 'wav', '-y', '/tmp/tmp0.wav']' returned non-zero exit status 1."))
    as Hres by (vm_compute; reflexivity).
  split; [exact Hres|].
  intros msg Hmsg. rewrite Hres in Hmsg. injection Hmsg as <-.
  vm_compute. reflexivity.
Qed.

(** C5, amended. For a format other than mp3, with the encoder available,
    after the synthesis call succeeded. When the encoder exits non-zero,
    [_generate_audio] deletes the converted file, then the native file, and
    raises [RuntimeError] with [error_message]: neither file is on disk, the
    disk is as it was before the call, and the message carries the error
    stream of the encoder when [DETAILED_ERROR_LOGGING] is on, and is the
    text of the process error otherwise. When the encoder succeeds,
    [_generate_audio] deletes the native file and returns the path of the
    converted file, which is on disk and ends with the suffix of the
    format. *)
Theorem C5_conversion_outcomes E text voice response_format speed w :
  response_format <> "mp3" ->
  ffmpeg_available E = true ->
  edge_save E text voice (speed_rate speed) = None ->
  let native := fresh_tmp (disk w) ".mp3" in
  let converted := fresh_tmp ({[native]} ∪ disk w) ("." +:+ response_format) in
  let cmd := ffmpeg_command native response_format converted in
  let R := _generate_audio E text voice response_format speed w in
  (forall returncode stderr,
     run E cmd = CalledProcessError returncode stderr ->
     fst R = Raise (RuntimeError (error_message E cmd returncode stderr))
     /\ (native ∉ disk (snd R))
     /\ (converted ∉ disk (snd R))
     /\ disk (snd R) = disk w
     /\ deletions (trace (snd R)) = (deletions (trace w) ++ [converted; native])%list
     /\ (DETAILED_ERROR_LOGGING E = true ->
         Py.contains stderr (error_message E cmd returncode stderr) = true)
     /\ (DETAILED_ERROR_LOGGING E = false ->
         error_message E cmd returncode stderr
         = "FFmpeg error during audio conversion: "
           +:+ CalledProcessError_str E cmd returncode))
  /\ (run E cmd = Completed ->
      fst R = Ok converted
      /\ (native ∉ disk (snd R))
      /\ converted ∈ disk (snd R)
      /\ disk (snd R) = {[converted]} ∪ disk w
      /\ deletions (trace (snd R)) = (deletions (trace w) ++ [native])%list
      /\ Py.endswith ("." +:+ response_format) converted = true).
Proof.
  intros Hfmt Hprobe Hsave native converted cmd R.
  assert (native ∉ disk w) as Hnative by apply fresh_tmp_fresh.
  assert (converted ∉ {[native]} ∪ disk w) as Hconverted by apply fresh_tmp_fresh.
  pose proof (generate_audio_encoder E text voice response_format speed w
                Hsave Hfmt Hprobe) as Hrun.
  simpl in Hrun. fold native converted cmd R in Hrun.
  split.
  - intros returncode stderr Hfail. rewrite Hfail in Hrun.
    destruct Hrun as (Hres & Hdisk & Htrace).
    rewrite Hres, Hdisk, Htrace, !deletions_app. simpl. rewrite app_nil_r.
    split; [done|]. split; [done|]. split; [set_solver|].
    split; [done|]. split; [done|].
    unfold error_message. split; intros ->; [|done].
    rewrite !string_app_assoc. apply contains_app_r.
  - intros Hdone. rewrite Hdone in Hrun.
    destruct Hrun as (Hres & Hdisk & Htrace).
    rewrite Hres, Hdisk, Htrace, !deletions_app. simpl. rewrite app_nil_r.
    split; [done|]. split; [set_solver|]. split; [set_solver|].
    split; [done|]. split; [done|]. apply fresh_tmp_endswith.
Qed.

(** A conversion to wav that the encoder fails, with detailed logging on. *)
Lemma C5_conversion_outcomes_witness :
  let stderr := "Invalid data found when processing input" in
  let E := demo_env (Some "en") None Completed (CalledProcessError 1 stderr) true in
  let native := fresh_tmp ∅ ".mp3" in
  let converted := fresh_tmp ({[native]} ∪ ∅) ("." +:+ "wav") in
  let cmd := ffmpeg_command native "wav" converted in
  let R := _generate_audio E "Hello" "en-US-AvaNeural" "wav" 1 empty_world in
  ("wav" <> "mp3"
   /\ ffmpeg_available E = true
   /\ edge_save E "Hello" "en-US-AvaNeural" (speed_rate 1) = None
   /\ run E cmd = CalledProcessError 1 stderr
   /\ DETAILED_ERROR_LOGGING E = true)
  /\ fst R = Raise (RuntimeError (error_message E cmd 1 stderr))
  /\ disk (snd R) = ∅
  /\ Py.contains stderr (error_message E cmd 1 stderr) = true.
Proof.
  intros stderr E native converted cmd R.
  assert ("wav" <> "mp3") as Hfmt by discriminate.
  assert (run E cmd = CalledProcessError 1 stderr) as Hfail
    by (vm_compute; reflexivity).
  split.
  { split; [exact Hfmt|]. split; [reflexivity|]. split; [reflexivity|].
    split; [exact Hfail | reflexivity]. }
  destruct (C5_conversion_outcomes E "Hello" "en-US-AvaNeural" "wav" 1 empty_world
              Hfmt eq_refl eq_refl) as [Hfailure _].
  destruct (Hfailure 1%Z stderr Hfail) as (Hres & _ & _ & Hdisk & _ & Hcarries & _).
  split; [exact Hres|]. split; [exact Hdisk | exact (Hcarries eq_refl)].
Defined.

(** ** C6: which English-prefixed voices the rule applies to *)

(** C6, as stated, fails: [en-US-EmmaMultilingualNeural], passed directly,
    begins with [en-] and is not the multilingual voice itself; the text is
    detected as French, which has no override and is not English, so the
    rule would give [MULTILINGUAL_VOICE]; the voice is left as it is. *)
Lemma C6_counterexample :
  let E := demo_env (Some "fr") None Completed Completed true in
  let voice := "en-US-EmmaMultilingualNeural" in
  let text := "Bonjour le monde" in
  voice_mapping !! voice = None
  /\ Py.startswith "en-" (mapped_voice voice) = true
  /\ mapped_voice voice <> MULTILINGUAL_VOICE
  /\ LANGUAGE_VOICE_OVERRIDES !! detected_lang E text = None
  /\ detected_lang E text <> "en"
  /\ resolved_voice E voice text = "en-US-EmmaMultilingualNeural"
  /\ resolved_voice E voice text <> MULTILINGUAL_VOICE.
Proof.
  intros E voice text.
  split; [vm_compute; reflexivity|].
  split; [vm_compute; reflexivity|].
  split; [vm_compute; discriminate|].
  split; [vm_compute; reflexivity|].
  split; [vm_compute; discriminate|].
  split; [vm_compute; reflexivity | vm_compute; discriminate].
Qed.

(** C6, amended. Let [v] be the voice of step 1, whether it is the entry of
    an alias in [voice_mapping] or a selector passed directly (a selector
    that is no key). If [v] begins with [en-]: when [v] does not contain
    [Multilingual], the rule applies (override entry of the detected
    language, else [MULTILINGUAL_VOICE] for a language other than [en], else
    [v]); when [v] contains [Multilingual] it is left as it is. Every voice
    whose identifier contains [Multilingual] is exempt, not only
    [MULTILINGUAL_VOICE]. *)
Theorem C6_rule_for_english_prefixed_voices E voice text v :
  voice_mapping !! voice = Some v \/ (voice_mapping !! voice = None /\ v = voice) ->
  Py.startswith "en-" v = true ->
  (Py.contains "Multilingual" v = false ->
     resolved_voice E voice text
     = match LANGUAGE_VOICE_OVERRIDES !! detected_lang E text with
       | Some override => override
       | None =>
           if String.eqb (detected_lang E text) "en" then v
           else MULTILINGUAL_VOICE
       end)
  /\ (Py.contains "Multilingual" v = true -> resolved_voice E voice text = v).
Proof.
  intros Hstep1 Hen.
  assert (mapped_voice voice = v) as Hv.
  { unfold mapped_voice, dict_get. by destruct Hstep1 as [->|[-> ->]]. }
  unfold resolved_voice. rewrite Hv. split; intros Hmulti.
  - by apply language_rule_applies.
  - apply language_rule_exempt. by right.
Qed.

(** The same English voice reached through the alias fable and passed
    directly, with a text detected as French. *)
Lemma C6_rule_for_english_prefixed_voices_witness :
  let E := demo_env (Some "fr") None Completed Completed true in
  let text := "Bonjour le monde" in
  (voice_mapping !! "fable" = Some "en-GB-SoniaNeural"
   /\ voice_mapping !! "en-GB-SoniaNeural" = None
   /\ Py.startswith "en-" "en-GB-SoniaNeural" = true
   /\ Py.contains "Multilingual" "en-GB-SoniaNeural" = false)
  /\ resolved_voice E "fable" text = MULTILINGUAL_VOICE
  /\ resolved_voice E "en-GB-SoniaNeural" text = MULTILINGUAL_VOICE.
Proof.
  intros E text.
  assert (voice_mapping !! "fable" = Some "en-GB-SoniaNeural") as Halias
    by (vm_compute; reflexivity).
  assert (voice_mapping !! "en-GB-SoniaNeural" = None) as Hdirect
    by (vm_compute; reflexivity).
  assert (Py.startswith "en-" "en-GB-SoniaNeural" = true) as Hen
    by (vm_compute; reflexivity).
  assert (Py.contains "Multilingual" "en-GB-SoniaNeural" = false) as Hmulti
    by (vm_compute; reflexivity).
  split; [done|]. split.
  - exact (proj1 (C6_rule_for_english_prefixed_voices E "fable" text
                    "en-GB-SoniaNeural" (or_introl Halias) Hen) Hmulti).
  - exact (proj1 (C6_rule_for_english_prefixed_voices E "en-GB-SoniaNeural" text
                    "en-GB-SoniaNeural" (or_intror (conj Hdirect eq_refl)) Hen)
             Hmulti).
Defined.

(** ** C7: the native file is returned as it is *)

(** C7. Once the synthesis call has written the native file, if the format
    asked for is mp3, or if it is another one and the probe for the encoder
    fails, [_generate_audio] returns the path of that native file, the file
    is on disk, and the call deleted nothing. *)
Theorem C7_native_path_returned_unchanged E text voice response_format speed w :
  edge_save E text voice (speed_rate speed) = None ->
  response_format = "mp3" \/ ffmpeg_available E = false ->
  let native := fresh_tmp (disk w) ".mp3" in
  let R := _generate_audio E text voice response_format speed w in
  fst R = Ok native
  /\ EvSave text voice (speed_rate speed) native ∈ trace (snd R)
  /\ disk (snd R) = {[native]} ∪ disk w
  /\ deletions (trace (snd R)) = deletions (trace w).
Proof.
  intros Hsave Hcase native R.
  destruct (decide (response_format = "mp3")) as [->|Hfmt].
  - destruct (generate_audio_mp3 E text voice speed w Hsave) as (Hres & Hdisk & Htrace).
    subst R. rewrite Hres, Hdisk, Htrace, deletions_app. simpl.
    rewrite app_nil_r. repeat split; try done.
    apply elem_of_app. right. fold native. set_solver.
  - destruct Hcase as [?|Hprobe]; [done|].
    destruct (generate_audio_no_encoder E text voice response_format speed w
                Hsave Hfmt Hprobe) as (Hres & Hdisk & Htrace).
    subst R. rewrite Hres, Hdisk, Htrace, deletions_app. simpl.
    rewrite app_nil_r. repeat split; try done.
    apply elem_of_app. right. fold native. set_solver.
Qed.

(** A request for wav on a machine without the encoder. *)
Lemma C7_native_path_returned_unchanged_witness :
  let E := demo_env (Some "en") None NoSuchBinary NoSuchBinary true in
  let R := _generate_audio E "Hello" "en-US-AvaNeural" "wav" 1 empty_world in
  (edge_save E "Hello" "en-US-AvaNeural" (speed_rate 1) = None
   /\ ffmpeg_available E = false)
  /\ fst R = Ok (fresh_tmp ∅ ".mp3")
  /\ EvSave "Hello" "en-US-AvaNeural" (speed_rate 1) (fresh_tmp ∅ ".mp3") ∈ trace (snd R)
  /\ disk (snd R) = {[fresh_tmp ∅ ".mp3"]} ∪ ∅
  /\ deletions (trace (snd R)) = deletions [].
Proof.
  intros E R. split; [split; reflexivity|].
  apply (C7_native_path_returned_unchanged E "Hello" "en-US-AvaNeural" "wav" 1
           empty_world); [reflexivity | right; reflexivity].
Defined.

(** ** C8: an invalid speed is replaced by the neutral rate *)

(** C8. Whenever [speed_to_rate] raises for the speed of a request, the rate
    handed to the synthesis call is ["+0%"], the pipeline goes on exactly as
    for the speed 1.0, whose rate is ["+0%"], and [generate_speech] never
    ends with the exception of [speed_to_rate] (nor any [ValueError]). *)
Theorem C8_invalid_speed_uses_neutral_rate E text voice response_format speed w e :
  speed_to_rate speed = Raise e ->
  let R := generate_speech E text voice response_format speed w in
  speed_rate speed = "+0%"
  /\ (exists evs,
        trace (snd R)
        = (trace w ++ EvTemp ".mp3" (fresh_tmp (disk w) ".mp3")
                   :: EvSave text (resolved_voice E voice text) "+0%"
                        (fresh_tmp (disk w) ".mp3") :: evs)%list)
  /\ R = generate_speech E text voice response_format 1 w
  /\ fst R <> Raise e
  /\ (forall msg, fst R <> Raise (ValueError msg)).
Proof.
  intros Hraise R.
  assert (speed_rate speed = "+0%") as Hrate.
  { unfold speed_rate. by rewrite Hraise. }
  destruct (generate_audio_any E text (resolved_voice E voice text)
              response_format speed w) as [Htrace Hexn].
  rewrite Hrate in Htrace. fold (generate_speech E text voice response_format speed w) in *.
  fold R in Htrace, Hexn.
  split; [done|]. split; [done|]. split.
  { subst R. unfold generate_speech. apply generate_audio_rate_only.
    rewrite Hrate. vm_compute. reflexivity. }
  split; [|done].
  unfold speed_to_rate in Hraise. case_match; [|done].
  injection Hraise as <-. apply Hexn.
Qed.

(** A request at speed 2.5. *)
Lemma C8_invalid_speed_uses_neutral_rate_witness :
  let E := demo_env (Some "en") None Completed Completed true in
  let e := ValueError "Speed must be between 0 and 2 (inclusive)." in
  let R := generate_speech E "Hello" "alloy" "mp3" 2.5 empty_world in
  speed_to_rate 2.5 = Raise e
  /\ speed_rate 2.5 = "+0%"
  /\ (exists evs,
        trace (snd R)
        = (trace empty_world ++ EvTemp ".mp3" (fresh_tmp (disk empty_world) ".mp3")
                   :: EvSave "Hello" (resolved_voice E "alloy" "Hello") "+0%"
                        (fresh_tmp (disk empty_world) ".mp3") :: evs)%list)
  /\ R = generate_speech E "Hello" "alloy" "mp3" 1 empty_world
  /\ fst R <> Raise e
  /\ (forall msg, fst R <> Raise (ValueError msg)).
Proof.
  intros E e R.
  assert (speed_to_rate 2.5 = Raise e) as Hraise by (vm_compute; reflexivity).
  split; [exact Hraise|].
  exact (C8_invalid_speed_uses_neutral_rate E "Hello" "alloy" "mp3" 2.5
           empty_world e Hraise).
Defined.

(** ** C9: pass-through, and the voices the rule leaves alone *)

(** C9. A selector that is not a key of [voice_mapping] is itself the voice
    of step 1, and voice resolution goes on with it. When the voice of step 1
    does not begin with [en-], or is the multilingual voice, the resolved
    voice is the voice of step 1 whatever the text, and the synthesis call
    is made with it. *)
Theorem C9_passthrough_and_unchanged_voices E voice text :
  (voice_mapping !! voice = None ->
     mapped_voice voice = voice
     /\ resolved_voice E voice text = language_rule (detected_lang E text) voice)
  /\ (Py.startswith "en-" (mapped_voice voice) = false
      \/ mapped_voice voice = MULTILINGUAL_VOICE ->
      resolved_voice E voice text = mapped_voice voice
      /\ forall response_format speed w,
           generate_speech E text voice response_format speed w
           = _generate_audio E text (mapped_voice voice) response_format speed w).
Proof.
  split.
  - intros Hnone. unfold resolved_voice. by rewrite (mapped_voice_absent _ Hnone).
  - intros Hcase.
    assert (resolved_voice E voice text = mapped_voice voice) as Hsame.
    { unfold resolved_voice. apply language_rule_exempt.
      destruct Hcase as [Hen| ->]; [by left | right].
      apply contains_multilingual_voice. }
    split; [exact Hsame|]. intros. unfold generate_speech. by rewrite Hsame.
Qed.

(** A French voice passed directly, with a text detected as Russian. *)
Lemma C9_passthrough_and_unchanged_voices_witness :
  let E := demo_env (Some "ru") None Completed Completed true in
  let voice := "fr-FR-DeniseNeural" in
  let text := "Привет мир" in
  (voice_mapping !! voice = None
   /\ Py.startswith "en-" (mapped_voice voice) = false)
  /\ (mapped_voice voice = voice
      /\ resolved_voice E voice text = language_rule (detected_lang E text) voice)
  /\ (resolved_voice E voice text = mapped_voice voice
      /\ forall response_format speed w,
           generate_speech E text voice response_format speed w
           = _generate_audio E text (mapped_voice voice) response_format speed w).
Proof.
  intros E voice text.
  assert (voice_mapping !! voice = None) as Hnone by (vm_compute; reflexivity).
  assert (Py.startswith "en-" (mapped_voice voice) = false) as Hen
    by (vm_compute; reflexivity).
  split; [by split|].
  destruct (C9_passthrough_and_unchanged_voices E voice text) as [Hpass Hkeep].
  split; [exact (Hpass Hnone) | exact (Hkeep (or_introl Hen))].
Defined.

(** ** C10: without the encoder the caller gets an mp3 file *)

(** C10. For a format other than mp3, when the probe for the encoder fails
    (and the synthesis call succeeded), [generate_speech] ends without an
    exception and returns the path of the native file: the path ends with
    [.mp3] and does not end with the suffix of the format asked for. *)
Theorem C10_mp3_path_for_another_format E text voice response_format speed w :
  response_format <> "mp3" ->
  ffmpeg_available E = false ->
  edge_save E text (resolved_voice E voice text) (speed_rate speed) = None ->
  exists path,
    fst (generate_speech E text voice response_format speed w) = Ok path
    /\ path ∈ disk (snd (generate_speech E text voice response_format speed w))
    /\ Py.endswith ".mp3" path = true
    /\ Py.endswith ("." +:+ response_format) path = false.
Proof.
  intros Hfmt Hprobe Hsave. unfold generate_speech.
  destruct (generate_audio_no_encoder E text (resolved_voice E voice text)
              response_format speed w Hsave Hfmt Hprobe) as (Hres & Hdisk & _).
  exists (fresh_tmp (disk w) ".mp3"). split; [exact Hres|].
  split; [rewrite Hdisk; set_solver|].
  split; [apply fresh_tmp_endswith | by apply fresh_tmp_mp3_only_suffix].
Qed.

(** A request for wav on a machine without the encoder. *)
Lemma C10_mp3_path_for_another_format_witness :
  let E := demo_env (Some "en") None NoSuchBinary NoSuchBinary true in
  ("wav" <> "mp3"
   /\ ffmpeg_available E = false
   /\ edge_save E "Hello" (resolved_voice E "alloy" "Hello") (speed_rate 1) = None)
  /\ exists path,
       fst (generate_speech E "Hello" "alloy" "wav" 1 empty_world) = Ok path
       /\ path ∈ disk (snd (generate_speech E "Hello" "alloy" "wav" 1 empty_world))
       /\ Py.endswith ".mp3" path = true
       /\ Py.endswith ("." +:+ "wav") path = false.
Proof.
  intros E.
  assert ("wav" <> "mp3") as Hfmt by discriminate.
  split; [repeat split; [exact Hfmt | reflexivity..]|].
  apply (C10_mp3_path_for_another_format E "Hello" "alloy" "wav" 1 empty_world
           Hfmt); reflexivity.
Defined.

(** * Further properties of the code *)

(** ** The speed codec *)

(** X1. [speed_to_rate] raises exactly for the speeds that are numbers
    outside [0,2], and then with the [ValueError] of line 145; every other
    speed, a NaN among them, gets a rate string. *)
Theorem speed_to_rate_raises_iff (speed : float) :
  (exists e, speed_to_rate speed = Raise e)
  <-> ((speed =? speed)%float = true
       /\ ((0 <=? speed) && (speed <=? 2))%float = false).
Proof.
  split.
  - intros [e Hraise].
    destruct (speed =? speed)%float eqn:Hnum.
    + split; [done|].
      destruct (0 <=? speed)%float eqn:Hlow; [|done].
      destruct (speed <=? 2)%float eqn:Hhigh; [|done].
      by rewrite (speed_to_rate_in_range speed Hlow Hhigh) in Hraise.
    + by rewrite (speed_to_rate_not_a_number speed Hnum) in Hraise.
  - intros [Hnum Hout]. eexists. by apply speed_to_rate_out_of_range.
Qed.

(** ** Voice resolution *)

Lemma override_values (lang override : string) :
  LANGUAGE_VOICE_OVERRIDES !! lang = Some override ->
  override = "ru-RU-DmitryNeural".
Proof.
  unfold LANGUAGE_VOICE_OVERRIDES.
  rewrite lookup_insert_Some, lookup_empty. by intros [[_ <-]|[_ ?]].
Qed.

Lemma mapped_voice_not_alias (selector : string) :
  voice_mapping !! mapped_voice selector = None.
Proof.
  unfold mapped_voice, dict_get.
  destruct (voice_mapping !! selector) as [v|] eqn:Hlookup; simpl; [|done].
  unfold voice_mapping in Hlookup.
  repeat (apply lookup_insert_Some in Hlookup as [[_ <-]|[_ Hlookup]];
          [by vm_compute|]).
  by rewrite lookup_empty in Hlookup.
Qed.

Lemma resolved_voice_not_alias E (selector text : string) :
  voice_mapping !! resolved_voice E selector text = None.
Proof.
  unfold resolved_voice, language_rule.
  destruct (_ && _); [|apply mapped_voice_not_alias].
  destruct (LANGUAGE_VOICE_OVERRIDES !! _) as [override|] eqn:Hover.
  - apply override_values in Hover as ->. by vm_compute.
  - destruct (negb _); [by vm_compute | apply mapped_voice_not_alias].
Qed.

Lemma language_rule_idempotent (lang v : string) :
  language_rule lang (language_rule lang v) = language_rule lang v.
Proof.
  unfold language_rule at 2 3.
  destruct (Py.startswith "en-" v && negb (Py.contains "Multilingual" v)) eqn:Hguard.
  - destruct (LANGUAGE_VOICE_OVERRIDES !! lang) as [override|] eqn:Hover.
    + apply override_values in Hover as ->. by vm_compute.
    + destruct (negb (String.eqb lang "en")) eqn:Hen; [by vm_compute|].
      unfold language_rule. by rewrite Hguard, Hover, Hen.
  - unfold language_rule. by rewrite Hguard.
Qed.

Lemma language_rule_range (lang v : string) :
  language_rule lang v = v
  \/ language_rule lang v = "ru-RU-DmitryNeural"
  \/ language_rule lang v = MULTILINGUAL_VOICE.
Proof.
  unfold language_rule.
  destruct (Py.startswith "en-" v && negb (Py.contains "Multilingual" v)); [|by left].
  destruct (LANGUAGE_VOICE_OVERRIDES !! lang) as [override|] eqn:Hover.
  - apply override_values in Hover as ->. right. by left.
  - destruct (negb (String.eqb lang "en")); [right; by right | by left].
Qed.

Lemma language_rule_replaced_is_kept (lang lang' v : string) :
  language_rule lang v <> v ->
  language_rule lang' (language_rule lang v) = language_rule lang v.
Proof.
  intros Hreplaced.
  destruct (language_rule_range lang v) as [Hsame|[-> | ->]];
    [done | by vm_compute..].
Qed.

(** X2. The voice resolved by one call of [generate_speech] is never one of
    the aliases of [voice_mapping]. Handed back as the selector to another
    call, whose detector answers are its own: it resolves to itself when
    that call detects the same language as the first did, and, when the
    first call replaced the voice of step 1 (by an override or by the
    multilingual voice), it resolves to itself whatever is detected. *)
Theorem resolved_voice_fixed_point E1 E2 (selector text1 text2 : string) :
  let r := resolved_voice E1 selector text1 in
  voice_mapping !! r = None
  /\ (detected_lang E2 text2 = detected_lang E1 text1 ->
      resolved_voice E2 r text2 = r)
  /\ (r <> mapped_voice selector -> resolved_voice E2 r text2 = r).
Proof.
  intros r.
  assert (voice_mapping !! r = None) as Hnone by apply resolved_voice_not_alias.
  split; [done|].
  assert (resolved_voice E2 r text2 = language_rule (detected_lang E2 text2) r)
    as ->.
  { unfold resolved_voice. by rewrite (mapped_voice_absent _ Hnone). }
  subst r. unfold resolved_voice. split.
  - intros ->. apply language_rule_idempotent.
  - apply language_rule_replaced_is_kept.
Qed.

(** The alias alloy with a text detected as Russian, then the resolved voice
    with a text detected as French. *)
Lemma resolved_voice_fixed_point_witness :
  let E1 := demo_env (Some "ru") None Completed Completed true in
  let E2 := demo_env (Some "fr") None Completed Completed true in
  let r := resolved_voice E1 "alloy" "Привет мир" in
  r <> mapped_voice "alloy"
  /\ voice_mapping !! r = None
  /\ resolved_voice E2 r "Bonjour le monde" = r.
Proof.
  intros E1 E2 r.
  assert (r <> mapped_voice "alloy") as Hreplaced by (vm_compute; discriminate).
  split; [exact Hreplaced|].
  destruct (resolved_voice_fixed_point E1 E2 "alloy" "Привет мир" "Bonjour le monde")
    as (Hnone & _ & Hkept).
  split; [exact Hnone | exact (Hkept Hreplaced)].
Defined.

(** X3. When the detector answers [en] for the text, or raises
    [LangDetectException], the voice is the one of step 1: the alias entry,
    or the selector itself. *)
Theorem english_text_keeps_voice E (selector text : string) :
  detect E text = Some "en" \/ detect E text = None ->
  resolved_voice E selector text = mapped_voice selector.
Proof.
  intros Hdetect.
  assert (detected_lang E text = "en") as Hlang.
  { unfold detected_lang. by destruct Hdetect as [-> | ->]. }
  unfold resolved_voice, language_rule. rewrite Hlang.
  by destruct (_ && _).
Qed.

(** A text the detector cannot classify, with the alias nova. *)
Lemma english_text_keeps_voice_witness :
  let E := demo_env None None Completed Completed true in
  (detect E "12345" = Some "en" \/ detect E "12345" = None)
  /\ resolved_voice E "nova" "12345" = mapped_voice "nova".
Proof.
  intros E.
  assert (detect E "12345" = Some "en" \/ detect E "12345" = None) as Hdetect
    by (right; reflexivity).
  split; [exact Hdetect|].
  exact (english_text_keeps_voice E "nova" "12345" Hdetect).
Defined.

(** ** The pipeline *)

(** A path that [_generate_audio] returns names a file that exists then and
    did not exist before, with the suffix [.mp3] or that of the format. *)
Lemma generate_audio_returned_file E text v fmt speed w path :
  fst (_generate_audio E text v fmt speed w) = Ok path ->
  path ∈ disk (snd (_generate_audio E text v fmt speed w))
  /\ (path ∉ disk w)
  /\ (Py.endswith ".mp3" path = true \/ Py.endswith ("." +:+ fmt) path = true).
Proof.
  assert (fresh_tmp (disk w) ".mp3" ∉ disk w) as Hnative by apply fresh_tmp_fresh.
  pose proof (fresh_tmp_endswith (disk w) ".mp3") as Hmp3.
  destruct (edge_save E text v (speed_rate speed)) as [cause|] eqn:Hsave.
  { destruct (generate_audio_synthesis_fails E text v fmt speed w cause Hsave)
      as (Hres & _). by rewrite Hres. }
  destruct (decide (fmt = "mp3")) as [->|Hfmt].
  { destruct (generate_audio_mp3 E text v speed w Hsave) as (Hres & Hdisk & _).
    rewrite Hres, Hdisk. intros [= <-]. split; [set_solver|]. by split; [|left]. }
  destruct (ffmpeg_available E) eqn:Hprobe.
  - pose proof (generate_audio_encoder E text v fmt speed w Hsave Hfmt Hprobe) as Hrun.
    simpl in Hrun.
    pose proof (fresh_tmp_fresh ({[fresh_tmp (disk w) ".mp3"]} ∪ disk w)
                  ("." +:+ fmt)) as Hconverted.
    pose proof (fresh_tmp_endswith ({[fresh_tmp (disk w) ".mp3"]} ∪ disk w)
                  ("." +:+ fmt)) as Hsuffix.
    destruct (run E _) in Hrun; destruct Hrun as (Hres & Hdisk & _);
      rewrite Hres, Hdisk; [|done..].
    intros [= <-]. split; [set_solver|]. split; [set_solver | by right].
  - destruct (generate_audio_no_encoder E text v fmt speed w Hsave Hfmt Hprobe)
      as (Hres & Hdisk & _).
    rewrite Hres, Hdisk. intros [= <-]. split; [set_solver|]. by split; [|left].
Qed.

(** X4. Whenever [generate_speech] returns a path, the file exists when it
    returns, it did not exist before the call, and its name ends with [.mp3]
    or with the suffix of the format asked for. *)
Theorem generate_speech_returned_file_exists E text selector fmt speed w path :
  fst (generate_speech E text selector fmt speed w) = Ok path ->
  path ∈ disk (snd (generate_speech E text selector fmt speed w))
  /\ (path ∉ disk w)
  /\ (Py.endswith ".mp3" path = true \/ Py.endswith ("." +:+ fmt) path = true).
Proof. unfold generate_speech. apply generate_audio_returned_file. Qed.

(** A request for opus that the encoder converts. *)
Lemma generate_speech_returned_file_exists_witness :
  let E := demo_env (Some "en") None Completed Completed true in
  let R := generate_speech E "Hello" "alloy" "opus" 1 empty_world in
  fst R = Ok "/tmp/tmp0.opus"
  /\ "/tmp/tmp0.opus" ∈ disk (snd R)
  /\ ("/tmp/tmp0.opus" ∉ disk empty_world)
  /\ (Py.endswith ".mp3" "/tmp/tmp0.opus" = true
      \/ Py.endswith ("." +:+ "opus") "/tmp/tmp0.opus" = true).
Proof.
  intros E R.
  assert (fst R = Ok "/tmp/tmp0.opus") as Hres by (vm_compute; reflexivity).
  split; [exact Hres|].
  exact (generate_speech_returned_file_exists E "Hello" "alloy" "opus" 1
           empty_world "/tmp/tmp0.opus" Hres).
Defined.

(** X5. Whenever [_generate_audio] returns a path, the disk is exactly what
    it was before the call plus the file returned, which is new: the native
    file is gone when the converted one is returned, and nothing else was
    created or deleted. *)
Theorem generate_audio_success_leaves_only_result E text v fmt speed w path :
  fst (_generate_audio E text v fmt speed w) = Ok path ->
  (path ∉ disk w)
  /\ disk (snd (_generate_audio E text v fmt speed w)) = {[path]} ∪ disk w.
Proof.
  assert (fresh_tmp (disk w) ".mp3" ∉ disk w) as Hnative by apply fresh_tmp_fresh.
  destruct (edge_save E text v (speed_rate speed)) as [cause|] eqn:Hsave.
  { destruct (generate_audio_synthesis_fails E text v fmt speed w cause Hsave)
      as (Hres & _). by rewrite Hres. }
  destruct (decide (fmt = "mp3")) as [->|Hfmt].
  { destruct (generate_audio_mp3 E text v speed w Hsave) as (Hres & Hdisk & _).
    rewrite Hres, Hdisk. by intros [= <-]. }
  destruct (ffmpeg_available E) eqn:Hprobe.
  - pose proof (generate_audio_encoder E text v fmt speed w Hsave Hfmt Hprobe) as Hrun.
    simpl in Hrun.
    pose proof (fresh_tmp_fresh ({[fresh_tmp (disk w) ".mp3"]} ∪ disk w)
                  ("." +:+ fmt)) as Hconverted.
    destruct (run E _) in Hrun; destruct Hrun as (Hres & Hdisk & _);
      rewrite Hres, Hdisk; [|done..].
    intros [= <-]. split; [set_solver | done].
  - destruct (generate_audio_no_encoder E text v fmt speed w Hsave Hfmt Hprobe)
      as (Hres & Hdisk & _).
    rewrite Hres, Hdisk. by intros [= <-].
Qed.

(** A request for wav that the encoder converts: only the wav file stays. *)
Lemma generate_audio_success_leaves_only_result_witness :
  let E := demo_env (Some "en") None Completed Completed true in
  let R := _generate_audio E "Hello" "en-US-AvaNeural" "wav" 1 empty_world in
  fst R = Ok "/tmp/tmp0.wav"
  /\ ("/tmp/tmp0.wav" ∉ disk empty_world)
  /\ disk (snd R) = {["/tmp/tmp0.wav"]} ∪ disk empty_world.
Proof.
  intros E R.
  assert (fst R = Ok "/tmp/tmp0.wav") as Hres by (vm_compute; reflexivity).
  split; [exact Hres|].
  exact (generate_audio_success_leaves_only_result E "Hello" "en-US-AvaNeural"
           "wav" 1 empty_world "/tmp/tmp0.wav" Hres).
Defined.

(** X6. When the synthesis call raises, [generate_speech] ends with that
    exception, whatever the format asked for, and does nothing more: no
    process is run (the encoder is not even probed) and nothing is
    deleted. *)
Theorem synthesis_failure_stops_pipeline E text selector fmt speed w cause :
  edge_save E text (resolved_voice E selector text) (speed_rate speed) = Some cause ->
  let R := generate_speech E text selector fmt speed w in
  fst R = Raise (SynthesisFailure cause)
  /\ runs (trace (snd R)) = runs (trace w)
  /\ deletions (trace (snd R)) = deletions (trace w).
Proof.
  intros Hsave R. subst R. unfold generate_speech.
  destruct (generate_audio_synthesis_fails E text (resolved_voice E selector text)
              fmt speed w cause Hsave) as (Hres & _ & Htrace).
  rewrite Hres, Htrace, runs_app, deletions_app. simpl.
  by rewrite !app_nil_r.
Qed.

(** A request for flac whose synthesis call raises. *)
Lemma synthesis_failure_stops_pipeline_witness :
  let E := demo_env (Some "en") (Some "No audio was received") Completed Completed true in
  let R := generate_speech E "Hello" "alloy" "flac" 1 empty_world in
  edge_save E "Hello" (resolved_voice E "alloy" "Hello") (speed_rate 1)
  = Some "No audio was received"
  /\ fst R = Raise (SynthesisFailure "No audio was received")
  /\ runs (trace (snd R)) = runs (trace empty_world)
  /\ deletions (trace (snd R)) = deletions (trace empty_world).
Proof.
  intros E R. split; [reflexivity|].
  exact (synthesis_failure_stops_pipeline E "Hello" "alloy" "flac" 1 empty_world
           "No audio was received" eq_refl).
Defined.

(** X7. A request for mp3 never runs a process and never deletes a file,
    whatever the synthesis call does and whether or not the encoder is
    there; a path it returns ends with [.mp3]. *)
Theorem mp3_request_runs_no_process E text selector speed w :
  let R := generate_speech E text selector "mp3" speed w in
  runs (trace (snd R)) = runs (trace w)
  /\ deletions (trace (snd R)) = deletions (trace w)
  /\ (forall path, fst R = Ok path -> Py.endswith ".mp3" path = true).
Proof.
  intros R. subst R. unfold generate_speech.
  set (v := resolved_voice E selector text).
  destruct (edge_save E text v (speed_rate speed)) as [cause|] eqn:Hsave.
  - destruct (generate_audio_synthesis_fails E text v "mp3" speed w cause Hsave)
      as (Hres & _ & Htrace).
    rewrite Hres, Htrace, runs_app, deletions_app. simpl.
    by rewrite !app_nil_r.
  - destruct (generate_audio_mp3 E text v speed w Hsave) as (Hres & _ & Htrace).
    rewrite Hres, Htrace, runs_app, deletions_app. simpl.
    rewrite !app_nil_r. split; [done|]. split; [done|].
    intros path [= <-]. apply fresh_tmp_endswith.
Qed.

(** X8. When the probe found the encoder but the conversion itself cannot
    start the binary, the [FileNotFoundError] is not caught: it leaves
    [_generate_audio], nothing is deleted, and the native file and the empty
    converted file, both created by the call, stay on disk. *)
Theorem missing_binary_at_conversion_leaves_both_files
    E text v fmt speed w :
  fmt <> "mp3" ->
  ffmpeg_available E = true ->
  edge_save E text v (speed_rate speed) = None ->
  let native := fresh_tmp (disk w) ".mp3" in
  let converted := fresh_tmp ({[native]} ∪ disk w) ("." +:+ fmt) in
  run E (ffmpeg_command native fmt converted) = NoSuchBinary ->
  let R := _generate_audio E text v fmt speed w in
  fst R = Raise FileNotFoundError
  /\ native ∈ disk (snd R) /\ converted ∈ disk (snd R)
  /\ (native ∉ disk w) /\ (converted ∉ disk w)
  /\ native <> converted
  /\ deletions (trace (snd R)) = deletions (trace w).
Proof.
  intros Hfmt Hprobe Hsave native converted Hrun R.
  assert (native ∉ disk w) as Hnative by apply fresh_tmp_fresh.
  assert (converted ∉ {[native]} ∪ disk w) as Hconverted by apply fresh_tmp_fresh.
  pose proof (generate_audio_encoder E text v fmt speed w Hsave Hfmt Hprobe) as Hcase.
  simpl in Hcase. fold native converted R in Hcase. rewrite Hrun in Hcase.
  destruct Hcase as (Hres & Hdisk & Htrace).
  rewrite Hres, Hdisk, Htrace, deletions_app. simpl. rewrite app_nil_r.
  repeat split; try done; set_solver.
Qed.

(** A request for wav, the binary gone between the probe and the run. *)
Lemma missing_binary_at_conversion_leaves_both_files_witness :
  let E := demo_env (Some "en") None Completed NoSuchBinary true in
  let native := fresh_tmp (disk empty_world) ".mp3" in
  let converted := fresh_tmp ({[native]} ∪ disk empty_world) ("." +:+ "wav") in
  let R := _generate_audio E "Hello" "en-US-AvaNeural" "wav" 1 empty_world in
  ("wav" <> "mp3"
   /\ ffmpeg_available E = true
   /\ edge_save E "Hello" "en-US-AvaNeural" (speed_rate 1) = None
   /\ run E (ffmpeg_command native "wav" converted) = NoSuchBinary)
  /\ fst R = Raise FileNotFoundError
  /\ native ∈ disk (snd R) /\ converted ∈ disk (snd R)
  /\ (native ∉ disk empty_world) /\ (converted ∉ disk empty_world)
  /\ native <> converted
  /\ deletions (trace (snd R)) = deletions (trace empty_world).
Proof.
  intros E native converted R.
  assert ("wav" <> "mp3") as Hfmt by discriminate.
  assert (run E (ffmpeg_command native "wav" converted) = NoSuchBinary) as Hrun
    by (vm_compute; reflexivity).
  split.
  { split; [exact Hfmt|]. split; [reflexivity|]. split; [reflexivity | exact Hrun]. }
  exact (missing_binary_at_conversion_leaves_both_files E "Hello" "en-US-AvaNeural"
           "wav" 1 empty_world Hfmt eq_refl eq_refl Hrun).
Defined.

(** ** The voice catalogue *)

Lemma filter_all {A} (f : A -> bool) (l : list A) :
  (forall x, f x = true) -> List.filter f l = l.
Proof.
  intros Hall. induction l as [|x l IH]; simpl; [done|].
  by rewrite Hall, IH.
Qed.

Lemma filter_none {A} (f : A -> bool) (l : list A) :
  (forall x, x ∈ l -> f x = false) -> List.filter f l = [].
Proof.
  intros Hnone. induction l as [|x l IH]; simpl; [done|].
  rewrite (Hnone x) by apply list_elem_of_here.
  apply IH. intros y Hy. apply Hnone. by apply list_elem_of_further.
Qed.

Lemma py_or_specific (l : string) (dflt : option string) :
  l <> "" -> py_or (Some l) dflt = Some l.
Proof. intros Hl. unfold py_or. apply String.eqb_neq in Hl. by rewrite Hl. Qed.

(** X9. Asked for the language [all], [get_voices] answers with every voice
    of the catalogue, in the order of the catalogue, whatever the default
    language is; so it does when no language is asked for (none, or the
    empty string) and there is no default language. *)
Theorem get_voices_all (dflt : option string) (all_voices : list catalogue_voice) :
  let info v := {| name := ShortName v; gender := Gender v; language := Locale v |} in
  get_voices dflt all_voices (Some "all") = info <$> all_voices
  /\ get_voices None all_voices None = info <$> all_voices
  /\ get_voices None all_voices (Some "") = info <$> all_voices.
Proof.
  intros info. unfold get_voices, _get_voices. simpl.
  repeat split; by rewrite filter_all.
Qed.

(** X10. Asked for a language that is neither empty nor [all], [get_voices]
    answers with exactly the voices of the catalogue whose [Locale] is that
    language, whatever the default language is: every entry of the answer
    has that language, every such voice of the catalogue is in the answer,
    and a language no voice has gives the empty list. *)
Theorem get_voices_locale (dflt : option string) (all_voices : list catalogue_voice)
    (l : string) :
  l <> "" -> l <> "all" ->
  (forall i,
     i ∈ get_voices dflt all_voices (Some l)
     <-> exists v, v ∈ all_voices /\ Locale v = l
                   /\ i = {| name := ShortName v; gender := Gender v; language := l |})
  /\ ((forall v, v ∈ all_voices -> Locale v <> l) ->
      get_voices dflt all_voices (Some l) = []).
Proof.
  intros Hempty Hall.
  assert (forall v, voice_selected (Some l) v = true <-> Locale v = l) as Hsel.
  { intros v. unfold voice_selected. apply String.eqb_neq in Hall. rewrite Hall.
    simpl. apply String.eqb_eq. }
  unfold get_voices, _get_voices. rewrite (py_or_specific l dflt Hempty). split.
  - intros i. rewrite list_elem_of_fmap. split.
    + intros (v & -> & Hv). apply list_elem_of_In, filter_In in Hv as [Hv Hlocale].
      apply Hsel in Hlocale. exists v. rewrite <- list_elem_of_In in Hv.
      by rewrite Hlocale.
    + intros (v & Hv & Hlocale & ->). exists v. split; [by rewrite Hlocale|].
      apply list_elem_of_In, filter_In. split; [by apply list_elem_of_In|].
      by apply Hsel.
  - intros Hnone. rewrite filter_none; [done|].
    intros v Hv. apply not_true_is_false. intros Hlocale.
    apply Hsel in Hlocale. by destruct (Hnone v Hv).
Qed.

(** A catalogue of three voices, asked for [fr-FR]. *)
Lemma get_voices_locale_witness :
  let catalogue :=
    [ {| ShortName := "en-US-AvaNeural"; Gender := "Female"; Locale := "en-US" |};
      {| ShortName := "fr-FR-DeniseNeural"; Gender := "Female"; Locale := "fr-FR" |};
      {| ShortName := "fr-FR-HenriNeural"; Gender := "Male"; Locale := "fr-FR" |} ] in
  ("fr-FR" <> "" /\ "fr-FR" <> "all")
  /\ (forall i,
        i ∈ get_voices (Some "en-US") catalogue (Some "fr-FR")
        <-> exists v, v ∈ catalogue /\ Locale v = "fr-FR"
                      /\ i = {| name := ShortName v; gender := Gender v;
                                language := "fr-FR" |})
  /\ ((forall v, v ∈ catalogue -> Locale v <> "fr-FR") ->
      get_voices (Some "en-US") catalogue (Some "fr-FR") = []).
Proof.
  intros catalogue.
  assert ("fr-FR" <> "") as Hempty by discriminate.
  assert ("fr-FR" <> "all") as Hall by discriminate.
  split; [by split|].
  exact (get_voices_locale (Some "en-US") catalogue "fr-FR" Hempty Hall).
Defined.

(** X11. No language asked for, or the empty string: [get_voices] answers as
    for the default language. *)
Theorem get_voices_default (dflt : option string) (all_voices : list catalogue_voice)
    (asked : option string) :
  asked = None \/ asked = Some "" ->
  get_voices dflt all_voices asked = get_voices dflt all_voices dflt.
Proof.
  intros [-> | ->]; unfold get_voices, _get_voices; simpl;
    destruct dflt as [d|]; simpl; try done; by destruct (String.eqb d "").
Qed.

(** The empty string, with the default language [en-US]. *)
Lemma get_voices_default_witness :
  let catalogue :=
    [ {| ShortName := "en-US-AvaNeural"; Gender := "Female"; Locale := "en-US" |};
      {| ShortName := "fr-FR-DeniseNeural"; Gender := "Female"; Locale := "fr-FR" |} ] in
  (Some "" = None \/ Some "" = Some "")
  /\ get_voices (Some "en-US") catalogue (Some "")
     = get_voices (Some "en-US") catalogue (Some "en-US").
Proof.
  intros catalogue.
  assert (Some "" = None \/ Some "" = Some "") as Hasked by (right; reflexivity).
  split; [exact Hasked|].
  exact (get_voices_default (Some "en-US") catalogue (Some "") Hasked).
Defined.

(** ** The HTTP handlers *)

(** X12. [text_to_speech] answers 400 exactly when [request.json] returned
    a body without an [input] field (the JSON [null], an empty object, an
    object that lacks the field), and then it touches nothing: no file, no
    call. When [request.json] raises (a request without a body among them)
    the answer is the 500 of lines 47-52, with the text of the exception,
    and nothing is touched either. A body with an [input], the empty string
    included, is never answered 400. *)
Theorem text_to_speech_request_status C E w :
  (forall message,
     text_to_speech_request C E (JsonRaises message) w
     = (jsonify [("error", "An internal server error occurred");
                 ("details", message)] 500, w))
  /\ (forall data, data ≫= input = None ->
       text_to_speech_request C E (JsonIs data) w
       = (jsonify [("error", "Missing 'input' in request body")] 400, w))
  /\ (forall body answer,
       fst (text_to_speech_request C E body w) = jsonify answer 400 ->
       exists data, body = JsonIs data /\ data ≫= input = None).
Proof.
  split; [done|]. split.
  - intros data Hnone. unfold text_to_speech_request, text_to_speech.
    by rewrite Hnone.
  - intros [message|data] answer; unfold text_to_speech_request; [done|].
    unfold text_to_speech.
    destruct (data ≫= input) as [raw|] eqn:Hinput; [|by exists data].
    by destruct (generate_speech _ _ _ _ _ _) as [[path|e] w'].
Qed.

(** An empty JSON object. *)
Lemma text_to_speech_request_status_witness :
  let E := demo_env (Some "en") None Completed Completed true in
  let empty_body :=
    {| input := None; voice := None; response_format := None; speed := None |} in
  Some empty_body ≫= input = None
  /\ text_to_speech_request demo_config E (JsonIs (Some empty_body)) empty_world
     = (jsonify [("error", "Missing 'input' in request body")] 400, empty_world).
Proof.
  intros E empty_body.
  assert (Some empty_body ≫= input = None) as Hnone by reflexivity.
  split; [exact Hnone|].
  destruct (text_to_speech_request_status demo_config E empty_world)
    as (_ & Hmissing & _).
  exact (Hmissing (Some empty_body) Hnone).
Defined.

(** X13. A request whose speed is refused by [speed_to_rate] is answered,
    and changes the world, exactly as the same request with the speed 1.0:
    the bad speed gives no error response. *)
Theorem text_to_speech_invalid_speed C E (d : speech_body) (s : float) e w :
  speed d = Some s ->
  speed_to_rate s = Raise e ->
  text_to_speech C E (Some d) w
  = text_to_speech C E
      (Some {| input := input d; voice := voice d;
               response_format := response_format d; speed := Some 1%float |}) w.
Proof.
  intros Hspeed Hraise. unfold text_to_speech. simpl.
  destruct (input d) as [text|]; [|done]. rewrite Hspeed. simpl.
  unfold generate_speech.
  rewrite (generate_audio_rate_only E _ _ _ s 1); [done|].
  unfold speed_rate at 1. rewrite Hraise. by vm_compute.
Qed.

(** A request at speed 3.0. *)
Lemma text_to_speech_invalid_speed_witness :
  let E := demo_env (Some "en") None Completed Completed true in
  let d := {| input := Some "Hello"; voice := Some "alloy";
              response_format := Some "mp3"; speed := Some 3%float |} in
  let e := ValueError "Speed must be between 0 and 2 (inclusive)." in
  (speed d = Some 3%float /\ speed_to_rate 3 = Raise e)
  /\ text_to_speech demo_config E (Some d) empty_world
     = text_to_speech demo_config E
         (Some {| input := input d; voice := voice d;
                  response_format := response_format d; speed := Some 1%float |})
         empty_world.
Proof.
  intros E d e.
  assert (speed_to_rate 3 = Raise e) as Hraise by (vm_compute; reflexivity).
  split; [by split|].
  exact (text_to_speech_invalid_speed demo_config E d 3 e empty_world eq_refl Hraise).
Defined.

(** X14. When the encoder is not there and the format asked for is not mp3,
    a request whose synthesis succeeds is answered with a file declared in
    the format asked for (the MIME type of that format, the download name
    [speech.] followed by the format) while the file sent is the native one:
    its name ends with [.mp3] and not with the suffix of the format. *)
Theorem text_to_speech_declares_requested_format C E (d : speech_body) raw w :
  input d = Some raw ->
  let text := if negb (REMOVE_FILTER C) then prepare_tts_input_with_context C raw
              else raw in
  let selector := default (DEFAULT_VOICE C) (voice d) in
  let fmt := default (DEFAULT_RESPONSE_FORMAT C) (response_format d) in
  let sp := default (DEFAULT_SPEED C) (speed d) in
  fmt <> "mp3" ->
  ffmpeg_available E = false ->
  edge_save E text (resolved_voice E selector text) (speed_rate sp) = None ->
  exists path,
    fst (text_to_speech C E (Some d) w)
    = send_file path (dict_get (AUDIO_FORMAT_MIME_TYPES C) fmt "audio/mpeg")
        ("speech." +:+ fmt)
    /\ Py.endswith ".mp3" path = true
    /\ Py.endswith ("." +:+ fmt) path = false.
Proof.
  intros Hinput text selector fmt sp Hfmt Hprobe Hsave.
  destruct (generate_audio_no_encoder E text (resolved_voice E selector text)
              fmt sp w Hsave Hfmt Hprobe) as (Hres & _).
  exists (fresh_tmp (disk w) ".mp3").
  split; [|split; [apply fresh_tmp_endswith | by apply fresh_tmp_mp3_only_suffix]].
  unfold text_to_speech. simpl. rewrite Hinput.
  fold text selector fmt sp. unfold generate_speech.
  destruct (_generate_audio E text (resolved_voice E selector text) fmt sp w)
    as [res w'].
  simpl in Hres. by rewrite Hres.
Qed.

(** A request for wav on a machine without the encoder. *)
Lemma text_to_speech_declares_requested_format_witness :
  let E := demo_env (Some "en") None NoSuchBinary NoSuchBinary true in
  let d := {| input := Some "Hello"; voice := None;
              response_format := Some "wav"; speed := None |} in
  (input d = Some "Hello"
   /\ "wav" <> "mp3"
   /\ ffmpeg_available E = false
   /\ edge_save E "Hello" (resolved_voice E "en-US-AvaNeural" "Hello") (speed_rate 1)
      = None)
  /\ exists path,
       fst (text_to_speech demo_config E (Some d) empty_world)
       = send_file path "audio/wav" "speech.wav"
       /\ Py.endswith ".mp3" path = true
       /\ Py.endswith ".wav" path = false.
Proof.
  intros E d.
  assert ("wav" <> "mp3") as Hfmt by discriminate.
  split.
  { split; [reflexivity|]. split; [exact Hfmt|]. split; reflexivity. }
  exact (text_to_speech_declares_requested_format demo_config E d "Hello"
           empty_world eq_refl Hfmt eq_refl eq_refl).
Defined.

(** X15. Whenever [text_to_speech] answers with a file, that file was
    created by the request and is still on disk when the handler returns:
    the handler sends the file and never deletes it. *)
Theorem text_to_speech_leaves_file_on_disk C E data w path mimetype download_name :
  fst (text_to_speech C E data w) = send_file path mimetype download_name ->
  path ∈ disk (snd (text_to_speech C E data w)) /\ (path ∉ disk w).
Proof.
  unfold text_to_speech. destruct (data ≫= input) as [raw|]; [|done].
  set (text := if negb (REMOVE_FILTER C) then _ else _).
  set (selector := default _ _). set (fmt := default _ _). set (sp := default _ _).
  pose proof (generate_audio_returned_file E text (resolved_voice E selector text)
                fmt sp w) as Hfile.
  unfold generate_speech.
  destruct (_generate_audio _ _ _ _ _ _) as [[output_file_path|e] w']; [|done].
  simpl in *. intros [= <- _ _].
  destruct (Hfile output_file_path eq_refl) as (Hin & Hnew & _). by split.
Qed.

(** A request with only an input. *)
Lemma text_to_speech_leaves_file_on_disk_witness :
  let E := demo_env (Some "en") None Completed Completed true in
  let data := Some {| input := Some "Hello"; voice := None;
                      response_format := None; speed := None |} in
  fst (text_to_speech demo_config E data empty_world)
  = send_file "/tmp/tmp0.mp3" "audio/mpeg" "speech.mp3"
  /\ "/tmp/tmp0.mp3" ∈ disk (snd (text_to_speech demo_config E data empty_world))
  /\ ("/tmp/tmp0.mp3" ∉ disk empty_world).
Proof.
  intros E data.
  assert (fst (text_to_speech demo_config E data empty_world)
          = send_file "/tmp/tmp0.mp3" "audio/mpeg" "speech.mp3") as Hres
    by (vm_compute; reflexivity).
  split; [exact Hres|].
  exact (text_to_speech_leaves_file_on_disk demo_config E data empty_world
           "/tmp/tmp0.mp3" "audio/mpeg" "speech.mp3" Hres).
Defined.

(** X16. The ElevenLabs-style endpoint never runs a process and never
    deletes a file, whatever the request and the environment: it is refused
    without any effect when [EXPAND_API] is off, and otherwise it always asks
    for mp3. A file it answers with is declared [audio/mpeg], named
    [speech.mp3], has a name that ends with [.mp3], and is on disk. *)
Theorem elevenlabs_tts_runs_no_process C E voice_id payload w :
  let X := elevenlabs_tts C E voice_id payload w in
  runs (trace (snd X)) = runs (trace w)
  /\ deletions (trace (snd X)) = deletions (trace w)
  /\ (EXPAND_API C = false ->
      X = (jsonify [("error", "Endpoint not allowed")] 500, w))
  /\ (forall path mimetype download_name,
        fst X = send_file path mimetype download_name ->
        mimetype = "audio/mpeg" /\ download_name = "speech.mp3"
        /\ Py.endswith ".mp3" path = true
        /\ path ∈ disk (snd X)).
Proof.
  intros X. subst X. unfold elevenlabs_tts.
  destruct (EXPAND_API C); simpl; [|done].
  destruct payload as [raw|]; [|done].
  set (text := if negb (REMOVE_FILTER C) then _ else _).
  unfold generate_speech. set (v := resolved_voice E voice_id text).
  destruct (edge_save E text v (speed_rate (DEFAULT_SPEED C))) as [cause|] eqn:Hsave.
  - destruct (generate_audio_synthesis_fails E text v "mp3" (DEFAULT_SPEED C) w
                cause Hsave) as (Hres & _ & Htrace).
    destruct (_generate_audio _ _ _ _ _ _) as [res w']. simpl in *. subst res.
    simpl. rewrite Htrace, runs_app, deletions_app. simpl.
    by rewrite !app_nil_r.
  - destruct (generate_audio_mp3 E text v (DEFAULT_SPEED C) w Hsave)
      as (Hres & Hdisk & Htrace).
    destruct (_generate_audio _ _ _ _ _ _) as [res w']. simpl in *. subst res.
    simpl. rewrite Htrace, Hdisk, runs_app, deletions_app. simpl.
    rewrite !app_nil_r. split; [done|]. split; [done|]. split; [done|].
    intros p m n [= <- <- <-].
    split; [done|]. split; [done|].
    split; [apply fresh_tmp_endswith | set_solver].
Qed.

(** X17. In [list_voices], a [language] field decides alone: the [locale]
    field and every other field are ignored when it is there, even when it
    is the empty string; without a [language] field, [locale] stands for
    it; with neither, the voices of the default language are listed. *)
Theorem list_voices_language_first C all_voices (d : gmap string string) :
  (forall l, d !! "language" = Some l ->
     list_voices C all_voices (Some d)
     = jsonify_voices (get_voices (DEFAULT_LANGUAGE C) all_voices (Some l)))
  /\ (forall l, d !! "language" = None -> d !! "locale" = Some l ->
       list_voices C all_voices (Some d)
       = jsonify_voices (get_voices (DEFAULT_LANGUAGE C) all_voices (Some l)))
  /\ (d !! "language" = None -> d !! "locale" = None ->
      list_voices C all_voices (Some d) = list_voices C all_voices None
      /\ list_voices C all_voices None
         = jsonify_voices (get_voices (DEFAULT_LANGUAGE C) all_voices
                             (DEFAULT_LANGUAGE C))).
Proof.
  assert (forall k (v : string), d !! k = Some v -> bool_decide (d <> ∅) = true)
    as Hnonempty.
  { intros k v Hk. apply bool_decide_eq_true. intros ->.
    by rewrite lookup_empty in Hk. }
  unfold list_voices. split; [|split].
  - intros l Hl. rewrite (Hnonempty _ _ Hl), Hl. done.
  - intros l Hlang Hl. rewrite (Hnonempty _ _ Hl), Hlang, Hl. done.
  - intros Hlang Hlocale. rewrite Hlang, Hlocale.
    rewrite andb_false_r. split; [done|].
    f_equal. unfold get_voices, _get_voices. simpl.
    destruct (DEFAULT_LANGUAGE C) as [l|]; simpl; [|done].
    by destruct (String.eqb l "").
Qed.

(** An empty [language] beside the locale [fr-FR]: the locale is ignored. *)
Lemma list_voices_language_first_witness :
  let catalogue :=
    [ {| ShortName := "en-US-AvaNeural"; Gender := "Female"; Locale := "en-US" |};
      {| ShortName := "fr-FR-DeniseNeural"; Gender := "Female"; Locale := "fr-FR" |} ] in
  let d : gmap string string := <["language" := ""]> (<["locale" := "fr-FR"]> ∅) in
  d !! "language" = Some ""
  /\ list_voices demo_config catalogue (Some d)
     = jsonify_voices (get_voices (DEFAULT_LANGUAGE demo_config) catalogue (Some "")).
Proof.
  intros catalogue d.
  assert (d !! "language" = Some "") as Hlanguage by (vm_compute; reflexivity).
  split; [exact Hlanguage|].
  exact (proj1 (list_voices_language_first demo_config catalogue d) "" Hlanguage).
Defined.
